(** * Booking orchestration of [lib/booking-service.ts]

    A shallow embedding of [BookingService]: the two remote calls of
    [createBooking] (payment provider, then internal backend), the
    reconciliation of their outcomes, and [searchAvailability].

    Asynchronous functions are computations in a small monad that threads
    the log of observable effects ([fetch] calls and [console.error]
    lines) and either returns a value or throws.  Everything the code reads
    from its surroundings (environment variables, [localStorage],
    [crypto.randomUUID], [Date.parse], the answers of the network) is a
    field of one record, [Env], over which the theorems quantify.

    Response bodies are modelled at the TypeScript types the source
    declares for them ([SquareBookingResponse], [BookingResponse]);
    [number] fields hold integers; a time value is an integral number of
    milliseconds, or NaN.  The four methods that go through the API client
    ([getTeamMembers], [getTeamMemberServices], [cancelBooking],
    [getUserBookings]) are not part of the orchestration and are left
    out. *)

From Stdlib Require Import ZArith Bool Ascii String List Lia.
From stdpp Require Import base option gmap strings list pretty.

Local Open Scope string_scope.
Local Open Scope Z_scope.

Set Warnings "-register-all".

(** ** JavaScript values used by the service *)

Module Js.

(** [any]: the JSON values carried by the fields typed [any[]]. *)
Inductive Json :=
| JNull
| JBool (b : bool)
| JNum (n : Z)
| JStr (s : string)
| JArr (xs : list Json)
| JObj (fields : list (string * Json)).

(** Truthiness of a string: only the empty string is falsy. *)
Definition truthy (s : string) : bool :=
  match s with
  | EmptyString => false
  | String _ _ => true
  end.

(** [a || b] where [a] has type [string | undefined | null]. *)
Definition or_else (a : option string) (b : string) : string :=
  match a with
  | Some s => if truthy s then s else b
  | None => b
  end.

(** [a || undefined] where [a] has type [string | null]. *)
Definition or_undefined (a : option string) : option string :=
  match a with
  | Some s => if truthy s then Some s else None
  | None => None
  end.

(** Thrown values.  The constructor records which class the object is an
    instance of; [Error] is what [new Error(message)] builds. *)
Inductive Exn :=
| Error (message : string)
| TypeError (message : string)
| SyntaxError (message : string)
| RangeError (message : string).

(** How the evaluation of an expression ends. *)
Inductive Completion (A : Type) :=
| Return (a : A)
| Throw (e : Exn).
Arguments Return {A} a.
Arguments Throw {A} e.

End Js.
Export Js.

(** ** Dates

    The time value of a [Date] is a number of milliseconds since the
    epoch, at most 8.64e15 in magnitude, or NaN ([None]). *)

Module JsDate.

Definition Date := option Z.

Definition msPerDay : Z := 86400000.
Definition maxTime : Z := 8640000000000000.

(** TimeClip: a time value out of range becomes NaN. *)
Definition TimeClip (t : option Z) : Date :=
  match t with
  | Some v => if Z.abs v <=? maxTime then Some v else None
  | None => None
  end.

(** [new Date(value)] for a numeric [value]. *)
Definition of_number (v : option Z) : Date := TimeClip v.

(** [date.getTime()]. *)
Definition getTime (d : Date) : option Z := d.

(** [a + n] on numbers, NaN being absorbing. *)
Definition plus (a : option Z) (n : Z) : option Z :=
  match a with
  | Some v => Some (v + n)
  | None => None
  end.

(** Day number to proleptic Gregorian (year, month, day). *)
Definition civil_of_days (day : Z) : Z * Z * Z :=
  let z := day + 719468 in
  let era := z / 146097 in
  let doe := z mod 146097 in
  let yoe := (doe - doe / 1460 + doe / 36524 - doe / 146096) / 365 in
  let doy := doe - (365 * yoe + yoe / 4 - yoe / 100) in
  let mp := (5 * doy + 2) / 153 in
  let d := doy - (153 * mp + 2) / 5 + 1 in
  let m := if mp <? 10 then mp + 3 else mp - 9 in
  let y := yoe + era * 400 in
  (if m <=? 2 then y + 1 else y, m, d).

(** Proleptic Gregorian (year, month, day) to day number. *)
Definition days_of_civil (y m d : Z) : Z :=
  let y' := if m <=? 2 then y - 1 else y in
  let era := y' / 400 in
  let yoe := y' mod 400 in
  let mp := if m <=? 2 then m + 9 else m - 3 in
  let doy := (153 * mp + 2) / 5 + d - 1 in
  let doe := yoe * 365 + yoe / 4 - yoe / 100 + doy in
  era * 146097 + doe - 719468.

Definition digit (n : Z) : ascii :=
  ascii_of_N (48 + Z.to_N (n mod 10)).

(** The [width] low decimal digits of a non-negative [n], zero padded. *)
Fixpoint digits (width : nat) (n : Z) (acc : string) : string :=
  match width with
  | O => acc
  | S w => digits w (n / 10) (String (digit n) acc)
  end.

Definition pad (width : nat) (n : Z) : string := digits width n "".

(** Years 0 to 9999 take four digits, all others a sign and six. *)
Definition year_string (y : Z) : string :=
  if (0 <=? y) && (y <=? 9999) then pad 4 y
  else if y <? 0 then "-" +:+ pad 6 (- y)
  else "+" +:+ pad 6 y.

(** The text [toISOString] gives for a finite time value. *)
Definition iso_of_time (t : Z) : string :=
  let '(y, m, d) := civil_of_days (t / msPerDay) in
  let ms := t mod msPerDay in
  year_string y +:+ "-" +:+ pad 2 m +:+ "-" +:+ pad 2 d +:+ "T" +:+
  pad 2 (ms / 3600000) +:+ ":" +:+ pad 2 (ms / 60000 mod 60) +:+ ":" +:+
  pad 2 (ms / 1000 mod 60) +:+ "." +:+ pad 3 (ms mod 1000) +:+ "Z".

(** [date.toISOString()]: a RangeError on an invalid date. *)
Definition toISOString (d : Date) : Completion string :=
  match d with
  | Some t => Return (iso_of_time t)
  | None => Throw (RangeError "Invalid time value")
  end.

(** *** A [Date.parse] for the examples

    What [Date.parse] accepts beyond the ISO format is left to the
    implementation, so the service takes it from [Env].  The closed
    examples run with this one, which reads the UTC forms
    [YYYY-MM-DDTHH:mm:ssZ] and [YYYY-MM-DDTHH:mm:ss.sssZ] and gives NaN on
    every other text. *)

Definition digit_value (c : ascii) : option Z :=
  let n := Z.of_N (N_of_ascii c) in
  if (48 <=? n) && (n <=? 57) then Some (n - 48) else None.

Fixpoint number (width : nat) (acc : Z) (s : string) : option (Z * string) :=
  match width with
  | O => Some (acc, s)
  | S w =>
      match s with
      | String c rest => v ← digit_value c; number w (10 * acc + v) rest
      | EmptyString => None
      end
  end.

Definition expect (c : ascii) (s : string) : option string :=
  match s with
  | String c' rest => if Ascii.eqb c c' then Some rest else None
  | EmptyString => None
  end.

Definition fraction (s : string) : option (Z * string) :=
  match s with
  | String "." rest => number 3 0 rest
  | _ => Some (0, s)
  end.

Definition in_range (lo hi v : Z) : option unit :=
  if (lo <=? v) && (v <=? hi) then Some tt else None.

Definition parse_utc (s : string) : option Z :=
  '(y, s) ← number 4 0 s; s ← expect "-" s;
  '(m, s) ← number 2 0 s; s ← expect "-" s;
  '(d, s) ← number 2 0 s; s ← expect "T" s;
  '(hh, s) ← number 2 0 s; s ← expect ":" s;
  '(mm, s) ← number 2 0 s; s ← expect ":" s;
  '(ss, s) ← number 2 0 s;
  '(ms, s) ← fraction s; s ← expect "Z" s;
  _ ← in_range 1 12 m; _ ← in_range 0 23 hh;
  _ ← in_range 0 59 mm; _ ← in_range 0 59 ss;
  let day := days_of_civil y m d in
  if truthy s then None
  else if decide (civil_of_days day = (y, m, d))
  then Some (day * msPerDay + hh * 3600000 + mm * 60000 + ss * 1000 + ms)
  else None.

End JsDate.

(** ** Data model: the interfaces of [booking-service.ts]

    Each interface is a record in a module of its name, so that the fields
    keep the names they have in the source. *)

Module BookingRequest.
Record t := mk {
  service_variation_id : string;
  team_member_id : string;
  start_at : string;
  service_variation_version : option Z;
  customer_note : option string;
  idempotencyKey : option string;
}.
End BookingRequest.

Module SquareBookingRequest.
Record t := mk {
  serviceVariationId : string;
  teamMemberId : string;
  customerId : option string;
  startAt : string;
  serviceVariationVersion : option Z;
  customerNote : option string;
  idempotencyKey : string;
  locationId : string;
}.
End SquareBookingRequest.

Module TimeSlot.
Record segment := mk_segment {
  duration_minutes : Z;
  service_variation_id : string;
  team_member_id : string;
  service_variation_version : Z;
}.
Record t := mk {
  start_at : string;
  location_id : string;
  formatted_time : option string;
  appointment_segments : list segment;
}.
End TimeSlot.

Module AvailabilityResponse.
Record t := mk {
  availabilities_by_date : gmap string (list TimeSlot.t);
  errors : list Json;
}.
End AvailabilityResponse.

Module BookingResponse.
Record data_t := mk_data {
  id : Z;
  square_booking_id : string;
  service_name : string;
  start_at : string;
  end_at : string;
  status : string;
}.
Record t := mk {
  data : data_t;
  status_code : Z;
  message : string;
}.
End BookingResponse.

Module SquareBookingResponse.
Record booking_t := mk_booking {
  id : string;
  status : string;
  startAt : string;
  locationId : string;
  customerId : option string;
  createdAt : string;
  version : string;
}.
Record t := mk {
  success : bool;
  booking : option booking_t;
  message : option string;
  details : option (list Json);
  isRetry : option bool;
}.
End SquareBookingResponse.

(** The body of [POST /services/availability/search]: [searchAvailability]
    returns its [data] property. *)
Module AvailabilityEnvelope.
Record t := mk { data : AvailabilityResponse.t }.
End AvailabilityEnvelope.

(** ** Requests, responses and the log of effects *)

(** The argument of [JSON.stringify] at each of the three call sites; the
    text sent is a function of this value, which is what the model keeps.
    [BookingBody r None] is [r] itself, [BookingBody r (Some id)] is
    [{ ...r, square_booking_id: id }]. *)
Inductive Body :=
| SquareBody (r : SquareBookingRequest.t)
| BookingBody (r : BookingRequest.t) (square_booking_id : option string)
| AvailabilityBody (service_variation_id start_at end_at : string).

Record Request := mkRequest {
  url : string;
  method : string;
  headers : list (string * string);
  body : Body;
}.

(** A [Response] whose body, when it is JSON, has type [A]: [json] is the
    outcome of [response.json()]. *)
Record Response (A : Type) := mkResponse {
  ok : bool;
  json : Completion A;
}.
Arguments mkResponse {A} ok json.
Arguments ok {A} r.
Arguments json {A} r.

Inductive Event :=
| Fetch (req : Request)
| ConsoleError (label : string) (error : Exn).

(** ** What the service reads from its surroundings *)

Record Env := mkEnv {
  (** [process.env] *)
  process_env : gmap string string;
  (** [localStorage]: [getItem k] is [localStorage !! k] *)
  localStorage : gmap string string;
  (** the value of [crypto.randomUUID()] *)
  randomUUID : string;
  (** [Date.parse], NaN being [None] *)
  Date_parse : string -> option Z;
  (** [fetch], by endpoint: a promise that resolves with a response or
      rejects *)
  fetch_square : Request -> Completion (Response SquareBookingResponse.t);
  fetch_bookings : Request -> Completion (Response BookingResponse.t);
  fetch_availability : Request -> Completion (Response AvailabilityEnvelope.t);
}.

(** ** Asynchronous computations

    An [async] function takes the log so far and gives its completion and
    the extended log. *)

Definition Async (A : Type) : Type := list Event -> Completion A * list Event.

Definition ret {A} (a : A) : Async A := fun log => (Return a, log).

Definition throw {A} (e : Exn) : Async A := fun log => (Throw e, log).

Definition bind {A B} (m : Async A) (k : A -> Async B) : Async B :=
  fun log =>
    match m log with
    | (Return a, log') => k a log'
    | (Throw e, log') => (Throw e, log')
    end.

(** [try { m } catch (error) { handler }] *)
Definition try_catch {A} (m : Async A) (handler : Exn -> Async A) : Async A :=
  fun log =>
    match m log with
    | (Return a, log') => (Return a, log')
    | (Throw e, log') => handler e log'
    end.

(** [await] of a promise that is already settled. *)
Definition await {A} (c : Completion A) : Async A := fun log => (c, log).

(** [await fetch(...)]: the call is logged, then its outcome awaited. *)
Definition fetch {A} (net : Request -> Completion (Response A)) (req : Request)
  : Async (Response A) :=
  fun log => (net req, (log ++ [Fetch req])%list).

Definition console_error (label : string) (error : Exn) : Async unit :=
  fun log => (Return tt, (log ++ [ConsoleError label error])%list).

Notation "'let*' x ':=' m 'in' k" := (bind m (fun x => k))
  (at level 10, x name, m at level 100, k at level 200, only parsing).


(** ** The service *)

Module BookingService.
Section WithEnv.

Variable env : Env.

(** [process.env.NEXT_PUBLIC_API_URL || "http://localhost:3001/api"] *)
Definition api_url : string :=
  or_else (process_env env !! "NEXT_PUBLIC_API_URL") "http://localhost:3001/api".

(** The headers of the two calls to the backend. *)
Definition backend_headers : list (string * string) :=
  [("Content-Type", "application/json");
   ("Authorization", "Bearer " +:+ or_else (localStorage env !! "token") "null")].

(** [new Date(text)] *)
Definition new_Date (text : string) : JsDate.Date :=
  JsDate.TimeClip (Date_parse env text).

(** Create booking directly with Square API. *)
Definition createSquareBooking (bookingData : SquareBookingRequest.t)
  : Async SquareBookingResponse.t :=
  try_catch
    (let* response := fetch (fetch_square env)
         {| url := "/api/create-square-booking";
            method := "POST";
            headers := [("Content-Type", "application/json")];
            body := SquareBody bookingData |} in
     let* data := await (json response) in
     if negb (ok response) || negb (SquareBookingResponse.success data)
     then throw (Error (or_else (SquareBookingResponse.message data)
                                "Failed to create Square booking"))
     else ret data)
    (fun error =>
       let* _ := console_error "Error creating Square booking:" error in
       throw error).

(** Create a booking in our backend system; [None] is [null]. *)
Definition syncBookingWithBackend (bookingData : BookingRequest.t)
    (squareBookingId : option string) : Async (option BookingResponse.t) :=
  try_catch
    (let requestData :=
       match or_undefined squareBookingId with
       | Some id => BookingBody bookingData (Some id)
       | None => BookingBody bookingData None
       end in
     let* response := fetch (fetch_bookings env)
         {| url := api_url +:+ "/bookings";
            method := "POST";
            headers := backend_headers;
            body := requestData |} in
     let* data := await (json response) in
     ret (if ok response then Some data else None))
    (fun error =>
       let* _ := console_error "Error syncing booking with backend:" error in
       ret None).

(** The key both calls of one attempt carry:
    [bookingData.idempotencyKey || crypto.randomUUID()]. *)
Definition idempotencyKey_of (bookingData : BookingRequest.t) : string :=
  or_else (BookingRequest.idempotencyKey bookingData) (randomUUID env).

(** The argument [createBooking] gives to [createSquareBooking]. *)
Definition square_request (bookingData : BookingRequest.t)
  : SquareBookingRequest.t :=
  {| SquareBookingRequest.serviceVariationId :=
       BookingRequest.service_variation_id bookingData;
     SquareBookingRequest.teamMemberId :=
       BookingRequest.team_member_id bookingData;
     SquareBookingRequest.startAt := BookingRequest.start_at bookingData;
     SquareBookingRequest.serviceVariationVersion :=
       BookingRequest.service_variation_version bookingData;
     SquareBookingRequest.customerNote :=
       BookingRequest.customer_note bookingData;
     SquareBookingRequest.idempotencyKey := idempotencyKey_of bookingData;
     SquareBookingRequest.locationId :=
       or_else (process_env env !! "NEXT_PUBLIC_SQUARE_LOCATION_ID") "";
     SquareBookingRequest.customerId :=
       or_undefined (localStorage env !! "square_customer_id") |}.

(** [{ ...bookingData, idempotencyKey }] *)
Definition with_key (bookingData : BookingRequest.t) (key : string)
  : BookingRequest.t :=
  {| BookingRequest.service_variation_id :=
       BookingRequest.service_variation_id bookingData;
     BookingRequest.team_member_id := BookingRequest.team_member_id bookingData;
     BookingRequest.start_at := BookingRequest.start_at bookingData;
     BookingRequest.service_variation_version :=
       BookingRequest.service_variation_version bookingData;
     BookingRequest.customer_note := BookingRequest.customer_note bookingData;
     BookingRequest.idempotencyKey := Some key |}.

(** The response made up when Square has the booking and the backend not. *)
Definition synthetic (booking : SquareBookingResponse.booking_t)
  : Async BookingResponse.t :=
  let* end_at := await (JsDate.toISOString
              (JsDate.of_number
                 (JsDate.plus
                    (JsDate.getTime (new_Date (SquareBookingResponse.startAt booking)))
                    3600000))) in
  ret {| BookingResponse.data :=
           {| BookingResponse.id := 0;
              BookingResponse.square_booking_id := SquareBookingResponse.id booking;
              BookingResponse.service_name := "Your appointment";
              BookingResponse.start_at := SquareBookingResponse.startAt booking;
              BookingResponse.end_at := end_at;
              BookingResponse.status :=
                or_else (Some (SquareBookingResponse.status booking)) "ACCEPTED" |};
         BookingResponse.status_code := 200;
         BookingResponse.message :=
           "Booking created in Square but not yet synced with backend" |}.

(** Create a booking - handles both Square and backend creation. *)
Definition createBooking (bookingData : BookingRequest.t)
  : Async BookingResponse.t :=
  let idempotencyKey := idempotencyKey_of bookingData in
  let* squareResponse := createSquareBooking (square_request bookingData) in
  let* backendResponse := syncBookingWithBackend
      (with_key bookingData idempotencyKey)
      (SquareBookingResponse.id <$> SquareBookingResponse.booking squareResponse) in
  match backendResponse, SquareBookingResponse.booking squareResponse with
  | None, Some booking =>
      (* if (!backendResponse && squareResponse.booking) *)
      synthetic booking
  | Some response, _ =>
      (* if (backendResponse) *)
      ret response
  | None, None =>
      throw (Error "Failed to create booking in both Square and backend systems")
  end.

(** Search for available time slots for a service. *)
Definition searchAvailability (serviceVariationId : string)
    (startDate endDate : JsDate.Date) : Async AvailabilityResponse.t :=
  let* start_at := await (JsDate.toISOString startDate) in
  let* end_at := await (JsDate.toISOString endDate) in
  let* response := fetch (fetch_availability env)
      {| url := api_url +:+ "/services/availability/search";
         method := "POST";
         headers := backend_headers;
         body := AvailabilityBody serviceVariationId start_at end_at |} in
  if negb (ok response)
  then throw (Error "Failed to fetch availability")
  else
    let* data := await (json response) in
    ret (AvailabilityEnvelope.data data).

End WithEnv.
End BookingService.

(** ** Requests sent and events logged *)

Import BookingService.

(** The HTTP request [createSquareBooking] sends. *)
Definition square_http (bookingData : SquareBookingRequest.t) : Request :=
  {| url := "/api/create-square-booking";
     method := "POST";
     headers := [("Content-Type", "application/json")];
     body := SquareBody bookingData |}.

(** The HTTP request [syncBookingWithBackend] sends. *)
Definition sync_http (env : Env) (bookingData : BookingRequest.t)
    (squareBookingId : option string) : Request :=
  {| url := api_url env +:+ "/bookings";
     method := "POST";
     headers := backend_headers env;
     body := BookingBody bookingData (or_undefined squareBookingId) |}.

(** The HTTP request [searchAvailability] sends. *)
Definition availability_http (env : Env) (serviceVariationId start_at end_at : string)
  : Request :=
  {| url := api_url env +:+ "/services/availability/search";
     method := "POST";
     headers := backend_headers env;
     body := AvailabilityBody serviceVariationId start_at end_at |}.

(** An event is a call of the backend sync when it posts a booking body. *)
Definition is_sync (ev : Event) : bool :=
  match ev with
  | Fetch req =>
      match body req with
      | BookingBody _ _ => true
      | _ => false
      end
  | ConsoleError _ _ => false
  end.

(** An event is a call of the provider when it posts a Square body. *)
Definition is_provider (ev : Event) : bool :=
  match ev with
  | Fetch req =>
      match body req with
      | SquareBody _ => true
      | _ => false
      end
  | ConsoleError _ _ => false
  end.

Definition completion {A} (run : Completion A * list Event) : Completion A :=
  fst run.

Definition final_log {A} (run : Completion A * list Event) : list Event :=
  snd run.

Definition terminal_error : Exn :=
  Error "Failed to create booking in both Square and backend systems".

Definition square_failure (data : SquareBookingResponse.t) : Exn :=
  Error (or_else (SquareBookingResponse.message data)
                 "Failed to create Square booking").

(** ** Sample surroundings for the closed examples *)

Module Samples.

Definition request (key : option string) : BookingRequest.t :=
  {| BookingRequest.service_variation_id := "SV-FADE";
     BookingRequest.team_member_id := "TM-7";
     BookingRequest.start_at := "2025-03-01T10:00:00Z";
     BookingRequest.service_variation_version := Some 3;
     BookingRequest.customer_note := None;
     BookingRequest.idempotencyKey := key |}.

Definition booking (startAt : string) : SquareBookingResponse.booking_t :=
  {| SquareBookingResponse.id := "sq-booking-1";
     SquareBookingResponse.status := "ACCEPTED";
     SquareBookingResponse.startAt := startAt;
     SquareBookingResponse.locationId := "LOC-1";
     SquareBookingResponse.customerId := None;
     SquareBookingResponse.createdAt := "2025-02-20T09:00:00Z";
     SquareBookingResponse.version := "0" |}.

(** A body of the provider endpoint. *)
Definition square_body (success : bool)
    (booking : option SquareBookingResponse.booking_t)
  : SquareBookingResponse.t :=
  {| SquareBookingResponse.success := success;
     SquareBookingResponse.booking := booking;
     SquareBookingResponse.message := None;
     SquareBookingResponse.details := None;
     SquareBookingResponse.isRetry := None |}.

(** A record as the backend returns it. *)
Definition backend_record : BookingResponse.t :=
  {| BookingResponse.data :=
       {| BookingResponse.id := 41;
          BookingResponse.square_booking_id := "sq-booking-1";
          BookingResponse.service_name := "Skin fade";
          BookingResponse.start_at := "2025-03-01T10:00:00Z";
          BookingResponse.end_at := "2025-03-01T10:45:00Z";
          BookingResponse.status := "ACCEPTED" |};
     BookingResponse.status_code := 201;
     BookingResponse.message := "Booking created" |}.

Definition slots : AvailabilityResponse.t :=
  {| AvailabilityResponse.availabilities_by_date := ∅;
     AvailabilityResponse.errors := [] |}.

Definition respond {A} (ok : bool) (body : A) : Completion (Response A) :=
  Return (mkResponse ok (Return body)).

Definition offline {A} : Completion (Response A) :=
  Throw (TypeError "Failed to fetch").

(** A browser with an empty [localStorage] and no configuration, whose
    three endpoints answer every request the same way. *)
Definition browser
    (square : Completion (Response SquareBookingResponse.t))
    (bookings : Completion (Response BookingResponse.t))
    (availability : Completion (Response AvailabilityEnvelope.t)) : Env :=
  {| process_env := ∅;
     localStorage := ∅;
     randomUUID := "0b9d6f0e-5c1a-4a55-9f0e-2d6c1a7e4b10";
     Date_parse := JsDate.parse_utc;
     fetch_square := fun _ => square;
     fetch_bookings := fun _ => bookings;
     fetch_availability := fun _ => availability |}.

End Samples.

(** ** The methods that go through the API client

    [api-client.ts] is imported, not part of the service: its [get] and
    [post] are taken as they are used, a promise per path that resolves
    with a response or rejects with some thrown value.  Of the response of
    the two list endpoints only [data] is read. *)

Module TeamMember.
Record t := mk {
  id : Z;
  square_up_id : string;
  first_name : string;
  last_name : string;
  status : string;
  email_address : option string;
  is_owner : option bool;
}.
End TeamMember.

Module Service.
Record t := mk {
  id : Z;
  team_member_id : Z;
  name : string;
  description : string;
  price_amount : Z;
  price_currency : string;
  duration : Z;
  service_variation_id : string;
  square_catalog_id : string;
  variation_name : option string;
  is_available : option bool;
}.
End Service.

Module API.

(** A response of which [data] is read; [None] is a missing [data]. *)
Record envelope (A : Type) := mk_envelope { data : option A }.
Arguments mk_envelope {A} data.
Arguments data {A} e.

Record client := mk_client {
  (** [API.get] at the call site of [getTeamMembers] *)
  get_team_members : string -> Completion (envelope (list TeamMember.t));
  (** [API.get] at the call site of [getTeamMemberServices] *)
  get_services : string -> Completion (envelope (list Service.t));
  (** [API.get] at the call site of [getUserBookings] *)
  get : string -> Completion Json;
  (** [API.post] *)
  post : string -> Completion Json;
}.

End API.

(** [error.message] of a thrown value. *)
Definition message_of (error : Exn) : string :=
  match error with
  | Error m | TypeError m | SyntaxError m | RangeError m => m
  end.

(** The text of a number inside a template literal, for an integer below
    1e21 in magnitude (beyond which it is written with an exponent). *)
Definition number_text (n : Z) : string := pretty n.

Definition decimal_range (n : Z) : Prop := Z.abs n < 10 ^ 21.

Module BookingServiceApi.
Section WithClient.

Variable api : API.client.

(** Get all team members (barbers). *)
Definition getTeamMembers : Completion (list TeamMember.t) :=
  match API.get_team_members api "/team-members" with
  | Return response => Return (default [] (API.data response))
  | Throw error =>
      Throw (Error (or_else (Some (message_of error)) "Failed to fetch barbers"))
  end.

(** [`/services/team-member/${teamMemberId}`] *)
Definition services_path (teamMemberId : Z) : string :=
  "/services/team-member/" +:+ number_text teamMemberId.

(** Get services for a specific team member. *)
Definition getTeamMemberServices (teamMemberId : Z)
  : Completion (list Service.t) :=
  match API.get_services api (services_path teamMemberId) with
  | Return response => Return (default [] (API.data response))
  | Throw error =>
      Throw (Error (or_else (Some (message_of error))
                      ("Failed to fetch services for barber "
                         +:+ number_text teamMemberId)))
  end.

(** [`/bookings/${bookingId}/cancel`] *)
Definition cancel_path (bookingId : string) : string :=
  "/bookings/" +:+ bookingId +:+ "/cancel".

(** Cancel a booking. *)
Definition cancelBooking (bookingId : string) : Completion Json :=
  match API.post api (cancel_path bookingId) with
  | Return response => Return response
  | Throw error =>
      Throw (Error (or_else (Some (message_of error)) "Failed to cancel booking"))
  end.

(** [`/bookings?page=${page}&limit=${limit}`] *)
Definition bookings_path (page limit : Z) : string :=
  "/bookings?page=" +:+ number_text page +:+ "&limit=" +:+ number_text limit.

(** Get user's bookings; an argument left out is [None]. *)
Definition getUserBookings (page limit : option Z) : Completion Json :=
  let page := default 1 page in
  let limit := default 10 limit in
  match API.get api (bookings_path page limit) with
  | Return response => Return response
  | Throw error =>
      Throw (Error (or_else (Some (message_of error)) "Failed to fetch bookings"))
  end.

End WithClient.
End BookingServiceApi.

(** A method hands on the failures of its API call in normal form: it
    rejects exactly when the call rejects, and what it throws is a plain
    [Error] with a non-empty message, the message of the value the call
    threw whenever that one is non-empty. *)
Definition rejects_normalised {A B} (call : Completion A) (result : Completion B)
  : Prop :=
  (forall thrown, call = Throw thrown -> exists e, result = Throw e) /\
  (forall e,
      result = Throw e ->
      exists thrown m,
        call = Throw thrown /\ e = Error m /\ truthy m = true /\
        (truthy (message_of thrown) = true -> m = message_of thrown)).

(** The characters of a text all differ from [c]. *)
Fixpoint avoids (c : ascii) (s : string) : bool :=
  match s with
  | EmptyString => true
  | String c' rest => negb (Ascii.eqb c c') && avoids c rest
  end.

(** The number of events of a log that satisfy a test. *)
Fixpoint count (test : Event -> bool) (events : list Event) : nat :=
  match events with
  | [] => O
  | ev :: rest => ((if test ev then 1 else 0) + count test rest)%nat
  end.

(** Time values whose year takes four digits: from the first millisecond
    of year 0 to the last of year 9999. *)
Definition four_digit_year (t : Z) : Prop :=
  -62167219200000 <= t <= 253402300799999.

(** ** Checks of the date model *)

Example iso_epoch : JsDate.iso_of_time 0 = "1970-01-01T00:00:00.000Z".
Proof. reflexivity. Qed.

Example iso_before_epoch :
  JsDate.iso_of_time (-1) = "1969-12-31T23:59:59.999Z".
Proof. reflexivity. Qed.

Example iso_leap_day :
  JsDate.iso_of_time 1709210096789 = "2024-02-29T12:34:56.789Z".
Proof. reflexivity. Qed.

Example iso_latest :
  JsDate.iso_of_time JsDate.maxTime = "+275760-09-13T00:00:00.000Z".
Proof. reflexivity. Qed.

Example iso_earliest :
  JsDate.iso_of_time (- JsDate.maxTime) = "-271821-04-20T00:00:00.000Z".
Proof. reflexivity. Qed.

Example parse_utc_sample :
  JsDate.parse_utc "2025-03-01T10:00:00Z" = Some 1740823200000.
Proof. reflexivity. Qed.

Example parse_utc_empty : JsDate.parse_utc "" = None.
Proof. reflexivity. Qed.

(** ** Runs of the three calls *)

Ltac unfold_async :=
  unfold bind, try_catch, await, fetch, console_error, ret, throw in *.

Section Runs.

Context (env : Env).

Lemma createSquareBooking_run (bookingData : SquareBookingRequest.t) log :
  createSquareBooking env bookingData log =
  let req := square_http bookingData in
  match fetch_square env req with
  | Return response =>
      match json response with
      | Return data =>
          if ok response && SquareBookingResponse.success data
          then (Return data, (log ++ [Fetch req])%list)
          else (Throw (square_failure data),
                (log ++ [Fetch req;
                         ConsoleError "Error creating Square booking:"
                                      (square_failure data)])%list)
      | Throw e =>
          (Throw e,
           (log ++ [Fetch req; ConsoleError "Error creating Square booking:" e])%list)
      end
  | Throw e =>
      (Throw e,
       (log ++ [Fetch req; ConsoleError "Error creating Square booking:" e])%list)
  end.
Proof.
  unfold createSquareBooking, square_http, square_failure. unfold_async. simpl.
  destruct (fetch_square env _) as [response|e]; simpl.
  - destruct (json response) as [data|e]; simpl.
    + destruct (ok response), (SquareBookingResponse.success data); simpl;
        rewrite <- ?app_assoc; reflexivity.
    + rewrite <- app_assoc. reflexivity.
  - rewrite <- app_assoc. reflexivity.
Qed.

Lemma syncBookingWithBackend_run (bookingData : BookingRequest.t)
    (squareBookingId : option string) log :
  syncBookingWithBackend env bookingData squareBookingId log =
  let req := sync_http env bookingData squareBookingId in
  match fetch_bookings env req with
  | Return response =>
      match json response with
      | Return data =>
          (Return (if ok response then Some data else None),
           (log ++ [Fetch req])%list)
      | Throw e =>
          (Return None,
           (log ++ [Fetch req;
                    ConsoleError "Error syncing booking with backend:" e])%list)
      end
  | Throw e =>
      (Return None,
       (log ++ [Fetch req;
                ConsoleError "Error syncing booking with backend:" e])%list)
  end.
Proof.
  unfold syncBookingWithBackend, sync_http. unfold_async.
  destruct (or_undefined squareBookingId); simpl;
    (destruct (fetch_bookings env _) as [response|e]; simpl;
     [ destruct (json response) as [data|e]; simpl | ];
     rewrite <- ?app_assoc; reflexivity).
Qed.

(** The provider call logs its own request and nothing of the sync. *)
Lemma createSquareBooking_log (bookingData : SquareBookingRequest.t) log :
  exists events,
    final_log (createSquareBooking env bookingData log) = (log ++ events)%list /\
    Forall (fun ev => is_sync ev = false) events.
Proof.
  rewrite createSquareBooking_run. cbv zeta.
  destruct (fetch_square env _) as [response|e].
  - destruct (json response) as [data|e].
    + destruct (ok response && SquareBookingResponse.success data);
        eexists; split; try reflexivity; repeat constructor.
    + eexists; split; try reflexivity; repeat constructor.
  - eexists; split; try reflexivity; repeat constructor.
Qed.

(** The sync never throws. *)
Lemma syncBookingWithBackend_total (bookingData : BookingRequest.t)
    (squareBookingId : option string) log :
  exists result,
    completion (syncBookingWithBackend env bookingData squareBookingId log)
    = Return result.
Proof.
  rewrite syncBookingWithBackend_run. cbv zeta.
  destruct (fetch_bookings env _) as [response|e]; [|eauto].
  destruct (json response); eauto.
Qed.

(** [createBooking] is the provider call, then the sync, then the choice
    between the three endings. *)
Lemma createBooking_run (bookingData : BookingRequest.t) log :
  createBooking env bookingData log =
  match createSquareBooking env (square_request env bookingData) log with
  | (Throw e, log1) => (Throw e, log1)
  | (Return squareResponse, log1) =>
      match syncBookingWithBackend env
              (with_key bookingData (idempotencyKey_of env bookingData))
              (SquareBookingResponse.id <$> SquareBookingResponse.booking squareResponse)
              log1 with
      | (Throw e, log2) => (Throw e, log2)
      | (Return (Some response), log2) => (Return response, log2)
      | (Return None, log2) =>
          match SquareBookingResponse.booking squareResponse with
          | Some booking => synthetic env booking log2
          | None => (Throw terminal_error, log2)
          end
      end
  end.
Proof.
  unfold createBooking, bind.
  destruct (createSquareBooking env _ log) as [[squareResponse|e] log1]; [|reflexivity].
  destruct (syncBookingWithBackend env _ _ log1) as [[[response|]|e] log2];
    try reflexivity.
  destruct (SquareBookingResponse.booking squareResponse); reflexivity.
Qed.

(** The synthetic response, when the start is a valid date and one hour
    later is a valid date too. *)
Lemma synthetic_run (booking : SquareBookingResponse.booking_t) (t : Z) log :
  new_Date env (SquareBookingResponse.startAt booking) = Some t ->
  t + 3600000 <= JsDate.maxTime ->
  synthetic env booking log =
  (Return
     {| BookingResponse.data :=
          {| BookingResponse.id := 0;
             BookingResponse.square_booking_id := SquareBookingResponse.id booking;
             BookingResponse.service_name := "Your appointment";
             BookingResponse.start_at := SquareBookingResponse.startAt booking;
             BookingResponse.end_at := JsDate.iso_of_time (t + 3600000);
             BookingResponse.status :=
               or_else (Some (SquareBookingResponse.status booking)) "ACCEPTED" |};
        BookingResponse.status_code := 200;
        BookingResponse.message :=
          "Booking created in Square but not yet synced with backend" |},
   log).
Proof.
  intros Hdate Hend.
  assert (Hlow : - JsDate.maxTime <= t).
  { unfold new_Date, JsDate.TimeClip in Hdate.
    destruct (Date_parse env _) as [v|]; [|discriminate].
    destruct (Z.leb_spec (Z.abs v) JsDate.maxTime); [|discriminate].
    injection Hdate as ->. lia. }
  unfold synthetic, JsDate.getTime, JsDate.of_number. unfold_async.
  rewrite Hdate. simpl.
  destruct (Z.leb_spec (Z.abs (t + 3600000)) JsDate.maxTime) as [_|Hout].
  - reflexivity.
  - unfold JsDate.maxTime in *. lia.
Qed.

(** Without a valid start the synthetic response cannot be built. *)
Lemma synthetic_invalid (booking : SquareBookingResponse.booking_t) log :
  new_Date env (SquareBookingResponse.startAt booking) = None ->
  synthetic env booking log = (Throw (RangeError "Invalid time value"), log).
Proof.
  intros H. unfold synthetic, JsDate.getTime. unfold_async. rewrite H.
  reflexivity.
Qed.

End Runs.

Example run_synced :
  completion
    (createBooking
       (Samples.browser
          (Samples.respond true
             (Samples.square_body true (Some (Samples.booking "2025-03-01T10:00:00Z"))))
          (Samples.respond true Samples.backend_record)
          Samples.offline)
       (Samples.request (Some "attempt-1")) [])
  = Return Samples.backend_record.
Proof. vm_compute. reflexivity. Qed.

Example run_unsynced_end_at :
  match completion
          (createBooking
             (Samples.browser
                (Samples.respond true
                   (Samples.square_body true
                      (Some (Samples.booking "2025-03-01T10:00:00Z"))))
                Samples.offline Samples.offline)
             (Samples.request None) []) with
  | Return response => BookingResponse.end_at (BookingResponse.data response)
  | Throw _ => ""
  end = "2025-03-01T11:00:00.000Z".
Proof. vm_compute. reflexivity. Qed.

(** ** Properties of the orchestration *)

Section Orchestration.

Context (env : Env).

(** A failure of the provider call ends [createBooking] on the spot. *)
Lemma createBooking_stops_at_provider (bookingData : BookingRequest.t) log e :
  completion (createSquareBooking env (square_request env bookingData) log) = Throw e ->
  createBooking env bookingData log =
  (Throw e,
   final_log (createSquareBooking env (square_request env bookingData) log)).
Proof.
  intros H. rewrite createBooking_run.
  destruct (createSquareBooking env _ log) as [[squareResponse|e'] log1];
    simpl in H; [discriminate|].
  injection H as ->. reflexivity.
Qed.

(** After the provider call has returned, [createBooking] throws only from
    its last two endings. *)
Lemma createBooking_after_provider (bookingData : BookingRequest.t) log
    squareResponse log1 backendResponse log2 :
  createSquareBooking env (square_request env bookingData) log
    = (Return squareResponse, log1) ->
  syncBookingWithBackend env
    (with_key bookingData (idempotencyKey_of env bookingData))
    (SquareBookingResponse.id <$> SquareBookingResponse.booking squareResponse) log1
    = (Return backendResponse, log2) ->
  createBooking env bookingData log =
  match backendResponse, SquareBookingResponse.booking squareResponse with
  | None, Some booking => synthetic env booking log2
  | Some response, _ => (Return response, log2)
  | None, None => (Throw terminal_error, log2)
  end.
Proof.
  intros Hsquare Hsync. rewrite createBooking_run, Hsquare, Hsync.
  destruct backendResponse; reflexivity.
Qed.

(** A provider call that returns has logged its request and nothing else. *)
Lemma createSquareBooking_return_log (bookingData : SquareBookingRequest.t) log
    squareResponse log1 :
  createSquareBooking env bookingData log = (Return squareResponse, log1) ->
  log1 = (log ++ [Fetch (square_http bookingData)])%list.
Proof.
  rewrite createSquareBooking_run. cbv zeta.
  destruct (fetch_square env _) as [response|e]; [|discriminate].
  destruct (json response) as [data|e]; [|discriminate].
  destruct (ok response && SquareBookingResponse.success data); [|discriminate].
  intros H. injection H as _ <-. reflexivity.
Qed.

(** Building the synthetic response logs nothing. *)
Lemma synthetic_log (booking : SquareBookingResponse.booking_t) log :
  final_log (synthetic env booking log) = log.
Proof.
  unfold synthetic. unfold_async.
  destruct (JsDate.toISOString _); reflexivity.
Qed.

(** Once the provider call has returned, the next event is the sync call,
    and no further call follows it. *)
Lemma createBooking_log_after_provider (bookingData : BookingRequest.t) log
    squareResponse log1 :
  createSquareBooking env (square_request env bookingData) log
    = (Return squareResponse, log1) ->
  exists rest,
    final_log (createBooking env bookingData log)
    = (log1 ++
       Fetch (sync_http env
                (with_key bookingData (idempotencyKey_of env bookingData))
                (SquareBookingResponse.id <$>
                   SquareBookingResponse.booking squareResponse))
       :: rest)%list /\
    Forall (fun ev => is_sync ev = false /\ is_provider ev = false) rest.
Proof.
  intros Hsquare.
  rewrite createBooking_run, Hsquare, syncBookingWithBackend_run. cbv zeta.
  destruct (fetch_bookings env _) as [response|e];
    [destruct (json response) as [data|e]; [destruct (ok response)|]|];
    try (exists []; split; [reflexivity|constructor]);
    (destruct (SquareBookingResponse.booking squareResponse) as [booking|];
     [rewrite synthetic_log|unfold final_log; cbn [snd]]);
    first [ exists []; split; [reflexivity|constructor]
          | eexists; split; [reflexivity|repeat constructor] ].
Qed.

End Orchestration.

(** C1. For every booking request, when the provider call
    [createSquareBooking] fails, [createBooking] rejects with that very
    failure, and no event it adds to the log is a call of the backend
    sync. *)
Theorem createBooking_provider_failure (env : Env)
    (bookingData : BookingRequest.t) log e :
  completion (createSquareBooking env (square_request env bookingData) log) = Throw e ->
  completion (createBooking env bookingData log) = Throw e /\
  exists events,
    final_log (createBooking env bookingData log) = (log ++ events)%list /\
    Forall (fun ev => is_sync ev = false) events.
Proof.
  intros H. rewrite (createBooking_stops_at_provider env bookingData log e H).
  split; [reflexivity|]. apply createSquareBooking_log.
Qed.

Lemma createBooking_provider_failure_witness :
  let env := Samples.browser Samples.offline
               (Samples.respond true Samples.backend_record) Samples.offline in
  completion (createBooking env (Samples.request (Some "attempt-1")) [])
    = Throw (TypeError "Failed to fetch") /\
  exists events,
    final_log (createBooking env (Samples.request (Some "attempt-1")) [])
      = ([] ++ events)%list /\
    Forall (fun ev => is_sync ev = false) events.
Proof.
  intros env.
  apply (createBooking_provider_failure env (Samples.request (Some "attempt-1")) []).
  vm_compute. reflexivity.
Defined.

(** C3. For every booking request, when the provider call succeeds and the
    backend sync returns a response (not null), [createBooking] returns
    that response as it is. *)
Theorem createBooking_returns_backend_response (env : Env)
    (bookingData : BookingRequest.t) log squareResponse log1 response log2 :
  createSquareBooking env (square_request env bookingData) log
    = (Return squareResponse, log1) ->
  syncBookingWithBackend env
    (with_key bookingData (idempotencyKey_of env bookingData))
    (SquareBookingResponse.id <$> SquareBookingResponse.booking squareResponse) log1
    = (Return (Some response), log2) ->
  createBooking env bookingData log = (Return response, log2).
Proof.
  intros Hsquare Hsync.
  rewrite (createBooking_after_provider env _ _ _ _ _ _ Hsquare Hsync).
  reflexivity.
Qed.

Lemma createBooking_returns_backend_response_witness :
  exists log2,
    createBooking
      (Samples.browser
         (Samples.respond true (Samples.square_body true None))
         (Samples.respond true Samples.backend_record)
         Samples.offline)
      (Samples.request None) []
    = (Return Samples.backend_record, log2).
Proof.
  eexists.
  eapply createBooking_returns_backend_response; vm_compute; reflexivity.
Defined.

(** C9. [syncBookingWithBackend] never rejects: for every booking request,
    optional Square booking id and answer of the network it returns, and
    what it returns is the parsed body when the response is ok and null
    in every other case, that is on a response that is not ok, on a
    rejected fetch and on a body that does not parse. *)
Theorem syncBookingWithBackend_never_rejects (env : Env)
    (bookingData : BookingRequest.t) (squareBookingId : option string) log :
  let run := syncBookingWithBackend env bookingData squareBookingId log in
  let outcome := fetch_bookings env (sync_http env bookingData squareBookingId) in
  (exists result, completion run = Return result) /\
  (forall response data,
      outcome = Return response -> json response = Return data ->
      ok response = true -> completion run = Return (Some data)) /\
  (forall response,
      outcome = Return response -> ok response = false ->
      completion run = Return None) /\
  (forall e, outcome = Throw e -> completion run = Return None) /\
  (forall response e,
      outcome = Return response -> json response = Throw e ->
      completion run = Return None).
Proof.
  cbv zeta. rewrite syncBookingWithBackend_run. cbv zeta.
  split; [|repeat split].
  - destruct (fetch_bookings env _) as [response|e]; [|simpl; eauto].
    destruct (json response); simpl; eauto.
  - intros response data -> -> ->. reflexivity.
  - intros response -> Hok. destruct (json response); simpl; [|reflexivity].
    rewrite Hok. reflexivity.
  - intros e ->. reflexivity.
  - intros response e -> ->. reflexivity.
Qed.

Lemma syncBookingWithBackend_never_rejects_witness :
  let env := Samples.browser Samples.offline
               (Samples.respond false Samples.backend_record) Samples.offline in
  completion (syncBookingWithBackend env (Samples.request (Some "attempt-1"))
                (Some "sq-booking-1") [])
  = Return None.
Proof.
  intros env.
  destruct (syncBookingWithBackend_never_rejects env
              (Samples.request (Some "attempt-1")) (Some "sq-booking-1") [])
    as [_ [_ [Hnot_ok _]]].
  apply (Hnot_ok (mkResponse false (Return Samples.backend_record)));
    reflexivity.
Defined.

(** C10. [createSquareBooking] rejects whenever the response is not ok or
    the parsed body has [success] false, so that a 200 carrying
    [success: false] is a failure of the provider; and it returns the
    parsed body exactly when the response is ok and [success] is true,
    whether or not the body carries a booking. *)
Theorem createSquareBooking_outcome (env : Env)
    (bookingData : SquareBookingRequest.t) log response :
  fetch_square env (square_http bookingData) = Return response ->
  let run := createSquareBooking env bookingData log in
  (ok response = false -> exists e, completion run = Throw e) /\
  (forall data,
      json response = Return data -> SquareBookingResponse.success data = false ->
      completion run = Throw (square_failure data)) /\
  (forall data,
      completion run = Return data <->
      json response = Return data /\ ok response = true /\
      SquareBookingResponse.success data = true) /\
  (forall data,
      json response = Return data -> ok response = true ->
      SquareBookingResponse.success data = true ->
      SquareBookingResponse.booking data = None ->
      completion run = Return data).
Proof.
  intros Hfetch. cbv zeta. rewrite createSquareBooking_run. cbv zeta.
  rewrite Hfetch. unfold completion. split; [|split; [|split]].
  - intros Hok. rewrite Hok. destruct (json response); simpl; eauto.
  - intros data -> Hsuccess. rewrite Hsuccess, andb_false_r. reflexivity.
  - intros data. split.
    + destruct (json response) as [data'|e]; [|discriminate].
      destruct (ok response), (SquareBookingResponse.success data') eqn:Hsuccess;
        simpl; intros H; try discriminate.
      injection H as <-. auto.
    + intros [-> [-> ->]]. reflexivity.
  - intros data -> -> -> _. reflexivity.
Qed.

Lemma createSquareBooking_outcome_witness :
  let env := Samples.browser
               (Samples.respond true (Samples.square_body false None))
               Samples.offline Samples.offline in
  let bookingData := square_request env (Samples.request None) in
  completion (createSquareBooking env bookingData [])
    = Throw (Error "Failed to create Square booking").
Proof.
  intros env bookingData.
  pose proof (createSquareBooking_outcome env bookingData []
                (mkResponse true (Return (Samples.square_body false None)))
                eq_refl) as [_ [Hfalse _]].
  apply (Hfalse (Samples.square_body false None)); reflexivity.
Defined.

(** C2, as stated, fails: the provider answers with a booking whose start
    is not a date, the sync fails, and [createBooking] rejects with the
    RangeError of [toISOString] instead of returning the synthetic
    response. *)
Lemma createBooking_synthetic_needs_valid_start :
  let env := Samples.browser
               (Samples.respond true
                  (Samples.square_body true (Some (Samples.booking ""))))
               Samples.offline Samples.offline in
  let bookingData := Samples.request (Some "attempt-1") in
  completion (createSquareBooking env (square_request env bookingData) [])
    = Return (Samples.square_body true (Some (Samples.booking ""))) /\
  completion (syncBookingWithBackend env
                (with_key bookingData (idempotencyKey_of env bookingData))
                (Some "sq-booking-1")
                [Fetch (square_http (square_request env bookingData))])
    = Return None /\
  completion (createBooking env bookingData [])
    = Throw (RangeError "Invalid time value").
Proof. vm_compute. repeat split. Qed.

(** C2, amended. For every booking request, when the provider call
    succeeds with a booking in its response, the backend sync fails
    (returns null), the start of that booking is a valid date of time
    value [t] and one hour later is still a valid date, [createBooking]
    returns a synthetic response with [status_code] 200, [data.id] 0,
    the identifier and start of the provider booking, and [data.end_at]
    the ISO text of [t + 3600000]. *)
Theorem createBooking_synthetic_response (env : Env)
    (bookingData : BookingRequest.t) log squareResponse log1 booking log2 t :
  createSquareBooking env (square_request env bookingData) log
    = (Return squareResponse, log1) ->
  SquareBookingResponse.booking squareResponse = Some booking ->
  syncBookingWithBackend env
    (with_key bookingData (idempotencyKey_of env bookingData))
    (Some (SquareBookingResponse.id booking)) log1
    = (Return None, log2) ->
  new_Date env (SquareBookingResponse.startAt booking) = Some t ->
  t + 3600000 <= JsDate.maxTime ->
  exists response,
    createBooking env bookingData log = (Return response, log2) /\
    BookingResponse.status_code response = 200 /\
    BookingResponse.id (BookingResponse.data response) = 0 /\
    BookingResponse.square_booking_id (BookingResponse.data response)
      = SquareBookingResponse.id booking /\
    BookingResponse.start_at (BookingResponse.data response)
      = SquareBookingResponse.startAt booking /\
    BookingResponse.end_at (BookingResponse.data response)
      = JsDate.iso_of_time (t + 3600000).
Proof.
  intros Hsquare Hbooking Hsync Hdate Hend.
  assert (Hrun := createBooking_after_provider env bookingData log
                    squareResponse log1 None log2 Hsquare).
  rewrite Hbooking in Hrun. simpl in Hrun. specialize (Hrun Hsync).
  rewrite (synthetic_run env booking t log2 Hdate Hend) in Hrun.
  eexists. split; [exact Hrun|]. repeat split.
Qed.

Lemma createBooking_synthetic_response_witness :
  exists response log2,
    createBooking
      (Samples.browser
         (Samples.respond true
            (Samples.square_body true
               (Some (Samples.booking "2025-03-01T10:00:00Z"))))
         (Samples.respond false Samples.backend_record)
         Samples.offline)
      (Samples.request None) []
    = (Return response, log2) /\
    BookingResponse.status_code response = 200 /\
    BookingResponse.id (BookingResponse.data response) = 0 /\
    BookingResponse.end_at (BookingResponse.data response)
      = "2025-03-01T11:00:00.000Z".
Proof.
  destruct (createBooking_synthetic_response
              (Samples.browser
                 (Samples.respond true
                    (Samples.square_body true
                       (Some (Samples.booking "2025-03-01T10:00:00Z"))))
                 (Samples.respond false Samples.backend_record)
                 Samples.offline)
              (Samples.request None) []
              (Samples.square_body true
                 (Some (Samples.booking "2025-03-01T10:00:00Z")))
              _ (Samples.booking "2025-03-01T10:00:00Z") _ 1740823200000
              ltac:(vm_compute; reflexivity) eq_refl
              ltac:(vm_compute; reflexivity) ltac:(vm_compute; reflexivity)
              ltac:(vm_compute; discriminate))
    as [response [Hrun [Hcode [Hid [_ [_ Hend]]]]]].
  exists response. eexists. split; [exact Hrun|].
  split; [exact Hcode|]. split; [exact Hid|].
  rewrite Hend. vm_compute. reflexivity.
Defined.

(** C4, as stated, fails: a caller who supplies the empty string as
    [idempotencyKey] does not see it passed on; both calls carry the
    generated UUID. *)
Lemma createBooking_empty_key_replaced :
  let env := Samples.browser
               (Samples.respond true
                  (Samples.square_body true
                     (Some (Samples.booking "2025-03-01T10:00:00Z"))))
               (Samples.respond true Samples.backend_record)
               Samples.offline in
  let bookingData := Samples.request (Some "") in
  (exists squareResponse,
      completion (createSquareBooking env (square_request env bookingData) [])
      = Return squareResponse) /\
  BookingRequest.idempotencyKey bookingData = Some "" /\
  SquareBookingRequest.idempotencyKey (square_request env bookingData)
    = "0b9d6f0e-5c1a-4a55-9f0e-2d6c1a7e4b10" /\
  SquareBookingRequest.idempotencyKey (square_request env bookingData) <> "".
Proof.
  cbv zeta. split; [|split; [|split]].
  - eexists. vm_compute. reflexivity.
  - reflexivity.
  - reflexivity.
  - discriminate.
Qed.

(** C4, amended. For every booking request whose provider call succeeds,
    the backend sync is attempted right after it, and the idempotency key
    of the sync request equals the key passed to the provider; that key is
    the caller's [idempotencyKey] when it is present and not the empty
    string, and otherwise the one UUID generated for the attempt. *)
Theorem createBooking_sync_same_key (env : Env)
    (bookingData : BookingRequest.t) log squareResponse log1 :
  createSquareBooking env (square_request env bookingData) log
    = (Return squareResponse, log1) ->
  let provider_data := square_request env bookingData in
  let key := SquareBookingRequest.idempotencyKey provider_data in
  let sync_data := with_key bookingData key in
  let sync_request :=
    sync_http env sync_data
      (SquareBookingResponse.id <$> SquareBookingResponse.booking squareResponse) in
  (exists rest,
      final_log (createBooking env bookingData log)
        = (log ++ Fetch (square_http provider_data) :: Fetch sync_request :: rest)%list /\
      Forall (fun ev => is_sync ev = false /\ is_provider ev = false) rest) /\
  (exists square_booking_id,
      body sync_request = BookingBody sync_data square_booking_id) /\
  BookingRequest.idempotencyKey sync_data = Some key /\
  key = match BookingRequest.idempotencyKey bookingData with
        | Some k => if truthy k then k else randomUUID env
        | None => randomUUID env
        end.
Proof.
  intros Hsquare. cbv zeta. split; [|split; [|split]].
  - destruct (createBooking_log_after_provider env bookingData log
                squareResponse log1 Hsquare) as [rest [Hlog Hrest]].
    exists rest. split; [|exact Hrest].
    rewrite Hlog, (createSquareBooking_return_log env _ _ _ _ Hsquare).
    rewrite <- app_assoc. reflexivity.
  - eexists. reflexivity.
  - reflexivity.
  - reflexivity.
Qed.

Lemma createBooking_sync_same_key_witness :
  let env := Samples.browser
               (Samples.respond true
                  (Samples.square_body true
                     (Some (Samples.booking "2025-03-01T10:00:00Z"))))
               (Samples.respond true Samples.backend_record)
               Samples.offline in
  let bookingData := Samples.request (Some "attempt-1") in
  SquareBookingRequest.idempotencyKey (square_request env bookingData)
    = "attempt-1" /\
  exists rest,
    final_log (createBooking env bookingData [])
    = ([] ++
       Fetch (square_http (square_request env bookingData))
       :: Fetch (sync_http env (with_key bookingData "attempt-1")
                   (Some "sq-booking-1"))
       :: rest)%list.
Proof.
  intros env bookingData.
  assert (Hsquare :
            createSquareBooking env (square_request env bookingData) []
            = (Return (Samples.square_body true
                         (Some (Samples.booking "2025-03-01T10:00:00Z"))),
               [Fetch (square_http (square_request env bookingData))]))
    by (vm_compute; reflexivity).
  destruct (createBooking_sync_same_key env bookingData [] _ _ Hsquare)
    as [[rest [Hlog _]] [_ [_ Hkey]]].
  split; [exact Hkey|]. exists rest. exact Hlog.
Defined.

(** C5, as stated, fails: the provider call succeeds with a body that
    carries no booking, the sync fails, and [createBooking] rejects. *)
Lemma createBooking_rejects_without_booking :
  let env := Samples.browser
               (Samples.respond true (Samples.square_body true None))
               Samples.offline Samples.offline in
  let bookingData := Samples.request (Some "attempt-1") in
  completion (createSquareBooking env (square_request env bookingData) [])
    = Return (Samples.square_body true None) /\
  completion (createBooking env bookingData []) = Throw terminal_error.
Proof. vm_compute. split; reflexivity. Qed.

(** C5, amended. For every booking request where the provider call
    succeeds with a booking in its response whose start is a valid date
    (and one hour later is a valid date too), [createBooking] never
    rejects: whatever the sync does a response is returned, and when the
    sync fails that response is the synthetic one, with [data.id] 0 and
    the identifier and start of the provider booking. *)
Theorem createBooking_never_rejects_with_booking (env : Env)
    (bookingData : BookingRequest.t) log squareResponse log1 booking t :
  createSquareBooking env (square_request env bookingData) log
    = (Return squareResponse, log1) ->
  SquareBookingResponse.booking squareResponse = Some booking ->
  new_Date env (SquareBookingResponse.startAt booking) = Some t ->
  t + 3600000 <= JsDate.maxTime ->
  exists response,
    completion (createBooking env bookingData log) = Return response /\
    (completion (syncBookingWithBackend env
                   (with_key bookingData (idempotencyKey_of env bookingData))
                   (Some (SquareBookingResponse.id booking)) log1)
       = Return None ->
     BookingResponse.id (BookingResponse.data response) = 0 /\
     BookingResponse.square_booking_id (BookingResponse.data response)
       = SquareBookingResponse.id booking /\
     BookingResponse.start_at (BookingResponse.data response)
       = SquareBookingResponse.startAt booking).
Proof.
  intros Hsquare Hbooking Hdate Hend.
  destruct (syncBookingWithBackend env
              (with_key bookingData (idempotencyKey_of env bookingData))
              (Some (SquareBookingResponse.id booking)) log1)
    as [[backendResponse|e] log2] eqn:Hsync.
  - assert (Hrun := createBooking_after_provider env bookingData log
                      squareResponse log1 backendResponse log2 Hsquare).
    rewrite Hbooking in Hrun. simpl in Hrun. specialize (Hrun Hsync).
    rewrite Hrun. destruct backendResponse as [response|].
    + exists response. split; [reflexivity|]. discriminate.
    + rewrite (synthetic_run env booking t log2 Hdate Hend).
      eexists. split; [reflexivity|]. intros _. repeat split.
  - destruct (syncBookingWithBackend_total env
                (with_key bookingData (idempotencyKey_of env bookingData))
                (Some (SquareBookingResponse.id booking)) log1) as [r Hr].
    rewrite Hsync in Hr. discriminate.
Qed.

Lemma createBooking_never_rejects_with_booking_witness :
  exists response,
    completion
      (createBooking
         (Samples.browser
            (Samples.respond true
               (Samples.square_body true
                  (Some (Samples.booking "2025-03-01T10:00:00Z"))))
            Samples.offline Samples.offline)
         (Samples.request None) [])
    = Return response.
Proof.
  set (env := Samples.browser
                (Samples.respond true
                   (Samples.square_body true
                      (Some (Samples.booking "2025-03-01T10:00:00Z"))))
                Samples.offline Samples.offline).
  assert (Hsquare :
            createSquareBooking env (square_request env (Samples.request None)) []
            = (Return (Samples.square_body true
                         (Some (Samples.booking "2025-03-01T10:00:00Z"))),
               [Fetch (square_http (square_request env (Samples.request None)))]))
    by (vm_compute; reflexivity).
  assert (Hdate : new_Date env "2025-03-01T10:00:00Z" = Some 1740823200000)
    by (vm_compute; reflexivity).
  assert (Hend : 1740823200000 + 3600000 <= JsDate.maxTime)
    by (vm_compute; discriminate).
  destruct (createBooking_never_rejects_with_booking env (Samples.request None)
              [] _ _ (Samples.booking "2025-03-01T10:00:00Z") _
              Hsquare eq_refl Hdate Hend) as [response [Hrun _]].
  exists response. exact Hrun.
Defined.

(** C6, as stated, fails: the provider answers 200 with [success: true]
    and no booking, the backend answers 500, and [createBooking], having
    made both calls, throws the terminal error of its last line. *)
Lemma createBooking_terminal_error_reached :
  let env := Samples.browser
               (Samples.respond true (Samples.square_body true None))
               (Samples.respond false Samples.backend_record)
               Samples.offline in
  let bookingData := Samples.request None in
  let key := idempotencyKey_of env bookingData in
  createSquareBooking env (square_request env bookingData) []
    = (Return (Samples.square_body true None),
       [Fetch (square_http (square_request env bookingData))]) /\
  createBooking env bookingData []
    = (Throw terminal_error,
       [Fetch (square_http (square_request env bookingData));
        Fetch (sync_http env (with_key bookingData key) None)]).
Proof. vm_compute. split; reflexivity. Qed.

(** The synthetic ending never throws the terminal error. *)
Lemma synthetic_not_terminal (env : Env)
    (booking : SquareBookingResponse.booking_t) log :
  completion (synthetic env booking log) <> Throw terminal_error.
Proof.
  unfold synthetic. unfold_async.
  destruct (JsDate.of_number _) as [t|]; simpl; discriminate.
Qed.

(** C6, amended. When the provider call fails, [createBooking] rejects
    with the provider's failure and without a call of the sync, so a
    failure of both calls never arrives at the end of the function; once
    the provider call has succeeded, [createBooking] throws its terminal
    error exactly when the response of the provider carries no booking and
    the backend sync fails. *)
Theorem createBooking_terminal_error_exactly (env : Env)
    (bookingData : BookingRequest.t) log :
  let provider := createSquareBooking env (square_request env bookingData) log in
  (forall e,
      completion provider = Throw e ->
      createBooking env bookingData log = (Throw e, final_log provider) /\
      exists events,
        final_log provider = (log ++ events)%list /\
        Forall (fun ev => is_sync ev = false) events) /\
  (forall squareResponse log1 backendResponse log2,
      provider = (Return squareResponse, log1) ->
      syncBookingWithBackend env
        (with_key bookingData (idempotencyKey_of env bookingData))
        (SquareBookingResponse.id <$> SquareBookingResponse.booking squareResponse)
        log1
        = (Return backendResponse, log2) ->
      (completion (createBooking env bookingData log) = Throw terminal_error <->
       backendResponse = None /\
       SquareBookingResponse.booking squareResponse = None)).
Proof.
  cbv zeta. split.
  - intros e H. split.
    + apply createBooking_stops_at_provider. exact H.
    + apply createSquareBooking_log.
  - intros squareResponse log1 backendResponse log2 Hsquare Hsync.
    rewrite (createBooking_after_provider env _ _ _ _ _ _ Hsquare Hsync).
    destruct backendResponse as [response|].
    + split; [discriminate | intros [? _]; discriminate].
    + destruct (SquareBookingResponse.booking squareResponse) as [booking|].
      * split.
        -- intros H. destruct (synthetic_not_terminal env booking log2 H).
        -- intros [_ ?]. discriminate.
      * split; [auto | reflexivity].
Qed.

Lemma createBooking_terminal_error_exactly_witness :
  let env := Samples.browser
               (Samples.respond true (Samples.square_body true None))
               Samples.offline Samples.offline in
  completion (createBooking env (Samples.request None) []) = Throw terminal_error.
Proof.
  intros env.
  destruct (createBooking_terminal_error_exactly env (Samples.request None) [])
    as [_ Hexactly].
  assert (Hsquare :
            createSquareBooking env (square_request env (Samples.request None)) []
            = (Return (Samples.square_body true None),
               [Fetch (square_http (square_request env (Samples.request None)))]))
    by (vm_compute; reflexivity).
  assert (Hsync :
            syncBookingWithBackend env
              (with_key (Samples.request None)
                 (idempotencyKey_of env (Samples.request None)))
              None
              [Fetch (square_http (square_request env (Samples.request None)))]
            = (Return None,
               [Fetch (square_http (square_request env (Samples.request None)));
                Fetch (sync_http env
                         (with_key (Samples.request None)
                            (idempotencyKey_of env (Samples.request None)))
                         None);
                ConsoleError "Error syncing booking with backend:"
                  (TypeError "Failed to fetch")]))
    by (vm_compute; reflexivity).
  apply (Hexactly _ _ _ _ Hsquare Hsync). split; reflexivity.
Defined.

(** C7. For every availability search whose request is answered by a
    response that is not ok, [searchAvailability] rejects with the error
    "Failed to fetch availability"; nothing is returned in its place. *)
Theorem searchAvailability_rejects_non_ok (env : Env)
    (serviceVariationId : string) (startDate endDate : JsDate.Date)
    start_at end_at log response :
  JsDate.toISOString startDate = Return start_at ->
  JsDate.toISOString endDate = Return end_at ->
  fetch_availability env
    (availability_http env serviceVariationId start_at end_at) = Return response ->
  ok response = false ->
  searchAvailability env serviceVariationId startDate endDate log =
  (Throw (Error "Failed to fetch availability"),
   (log ++ [Fetch (availability_http env serviceVariationId start_at end_at)])%list).
Proof.
  intros Hstart Hend Hfetch Hok.
  unfold searchAvailability, availability_http in *. unfold_async.
  rewrite Hstart, Hend, Hfetch, Hok. reflexivity.
Qed.

Lemma searchAvailability_rejects_non_ok_witness :
  completion
    (searchAvailability
       (Samples.browser Samples.offline Samples.offline
          (Samples.respond false (AvailabilityEnvelope.mk Samples.slots)))
       "SV-FADE" (Some 1740823200000) (Some 1741428000000) [])
  = Throw (Error "Failed to fetch availability").
Proof.
  rewrite (searchAvailability_rejects_non_ok
             (Samples.browser Samples.offline Samples.offline
                (Samples.respond false (AvailabilityEnvelope.mk Samples.slots)))
             "SV-FADE" (Some 1740823200000) (Some 1741428000000)
             _ _ [] _ eq_refl eq_refl eq_refl eq_refl).
  reflexivity.
Defined.

(** What [searchAvailability] does once its two dates have been written
    out: one call, and an ending that depends on the answer alone. *)
Lemma searchAvailability_run (env : Env) (serviceVariationId : string)
    (startTime endTime : Z) log :
  searchAvailability env serviceVariationId (Some startTime) (Some endTime) log =
  let req := availability_http env serviceVariationId
               (JsDate.iso_of_time startTime) (JsDate.iso_of_time endTime) in
  (match fetch_availability env req with
   | Return response =>
       if ok response
       then match json response with
            | Return data => Return (AvailabilityEnvelope.data data)
            | Throw e => Throw e
            end
       else Throw (Error "Failed to fetch availability")
   | Throw e => Throw e
   end,
   (log ++ [Fetch req])%list).
Proof.
  unfold searchAvailability, availability_http. unfold_async. simpl.
  destruct (fetch_availability env _) as [response|e]; [|reflexivity].
  destruct (ok response); [|reflexivity]. simpl.
  destruct (json response); reflexivity.
Qed.

(** C8, as stated, fails: the search from 8 March back to 1 March 2025 is
    sent like any other and, the backend answering 200, returns its
    slots. *)
Lemma searchAvailability_reversed_range_returns :
  let startTime := 1741428000000 in
  let endTime := 1740823200000 in
  endTime < startTime /\
  completion
    (searchAvailability
       (Samples.browser Samples.offline Samples.offline
          (Samples.respond true (AvailabilityEnvelope.mk Samples.slots)))
       "SV-FADE" (Some startTime) (Some endTime) [])
  = Return Samples.slots.
Proof. cbv zeta. split; [reflexivity|]. vm_compute. reflexivity. Qed.

(** C8, amended. For every call of [searchAvailability] whose start date
    is strictly after its end date, the range is sent to the backend as it
    is, and the call returns an error exactly when the request fails: the
    fetch rejects, the response is not ok, or the body does not parse.
    On an ok response with a body it returns the [data] of that body. *)
Theorem searchAvailability_reversed_range (env : Env)
    (serviceVariationId : string) (startTime endTime : Z) log :
  endTime < startTime ->
  let req := availability_http env serviceVariationId
               (JsDate.iso_of_time startTime) (JsDate.iso_of_time endTime) in
  let run := searchAvailability env serviceVariationId
               (Some startTime) (Some endTime) log in
  final_log run = (log ++ [Fetch req])%list /\
  ((exists e, completion run = Throw e) <->
   ~ (exists response data,
         fetch_availability env req = Return response /\
         ok response = true /\ json response = Return data)) /\
  (forall response data,
      fetch_availability env req = Return response ->
      ok response = true -> json response = Return data ->
      completion run = Return (AvailabilityEnvelope.data data)).
Proof.
  intros _. cbv zeta. rewrite searchAvailability_run. cbv zeta.
  unfold final_log, completion. cbn [fst snd].
  split; [reflexivity|]. split.
  - destruct (fetch_availability env _) as [response|e].
    + destruct (ok response) eqn:Hok.
      * destruct (json response) as [data|e] eqn:Hjson.
        -- split.
           ++ intros [e He]. discriminate.
           ++ intros Hnot. exfalso. apply Hnot. eauto.
        -- split; [|eauto].
           intros _ [response' [data [Hresp [_ Hdata]]]].
           injection Hresp as <-. congruence.
      * split; [|eauto].
        intros _ [response' [data [Hresp [Hok' _]]]].
        injection Hresp as <-. congruence.
    + split; [|eauto].
      intros _ [response' [data [Hresp _]]]. discriminate.
  - intros response data -> -> ->. reflexivity.
Qed.

Lemma searchAvailability_reversed_range_witness :
  exists e,
    completion
      (searchAvailability
         (Samples.browser Samples.offline Samples.offline
            (Samples.respond false (AvailabilityEnvelope.mk Samples.slots)))
         "SV-FADE" (Some 1741428000000) (Some 1740823200000) [])
    = Throw e.
Proof.
  destruct (searchAvailability_reversed_range
              (Samples.browser Samples.offline Samples.offline
                 (Samples.respond false (AvailabilityEnvelope.mk Samples.slots)))
              "SV-FADE" 1741428000000 1740823200000 [] eq_refl)
    as [_ [[_ Hfails] _]].
  apply Hfails. intros [response [data [Hresp [Hok _]]]].
  injection Hresp as <-. discriminate.
Defined.

(** ** The calendar of the date model *)

Section Calendar.

Import JsDate.

Lemma year_of_era_bounds doe :
  0 <= doe < 146097 ->
  let yoe := (doe - doe / 1460 + doe / 36524 - doe / 146096) / 365 in
  0 <= yoe <= 399 /\ 0 <= doe - (365 * yoe + yoe / 4 - yoe / 100) <= 365.
Proof. intros H. cbv zeta. Z.to_euclidean_division_equations; lia. Qed.

Ltac calendar_setup day :=
  unfold civil_of_days, days_of_civil;
  set (z := day + 719468);
  set (era := z / 146097);
  set (doe := z mod 146097);
  assert (Hdoe : 0 <= doe < 146097) by (apply Z.mod_pos_bound; lia);
  assert (Hz : z = era * 146097 + doe)
    by (unfold era, doe; rewrite Z.mul_comm; apply Z.div_mod; lia);
  pose proof (year_of_era_bounds doe Hdoe) as Hy; cbv zeta in Hy;
  set (yoe := (doe - doe / 1460 + doe / 36524 - doe / 146096) / 365) in *;
  set (doy := doe - (365 * yoe + yoe / 4 - yoe / 100)) in *;
  set (mp := (5 * doy + 2) / 153);
  assert (Hmp : 0 <= mp <= 11)
    by (unfold mp; Z.to_euclidean_division_equations; lia).

Lemma days_of_civil_of_days day :
  let '(y, m, d) := civil_of_days day in days_of_civil y m d = day.
Proof.
  calendar_setup day.
  destruct (Z.ltb_spec mp 10).
  - destruct (Z.leb_spec (mp + 3) 2); [lia|].
    replace ((yoe + era * 400) / 400) with era
      by (Z.to_euclidean_division_equations; lia).
    replace ((yoe + era * 400) mod 400) with yoe
      by (Z.to_euclidean_division_equations; lia).
    replace (mp + 3 - 3) with mp by lia.
    unfold doy in *. clearbody mp yoe doe era. subst z.
    Z.to_euclidean_division_equations; lia.
  - destruct (Z.leb_spec (mp - 9) 2); [|lia].
    replace (yoe + era * 400 + 1 - 1) with (yoe + era * 400) by lia.
    replace ((yoe + era * 400) / 400) with era
      by (Z.to_euclidean_division_equations; lia).
    replace ((yoe + era * 400) mod 400) with yoe
      by (Z.to_euclidean_division_equations; lia).
    replace (mp - 9 + 9) with mp by lia.
    unfold doy in *. clearbody mp yoe doe era. subst z.
    Z.to_euclidean_division_equations; lia.
Qed.

Lemma civil_of_days_month_day day :
  let '(y, m, d) := civil_of_days day in 1 <= m <= 12 /\ 1 <= d <= 31.
Proof.
  calendar_setup day.
  assert (Hd : 1 <= doy - (153 * mp + 2) / 5 + 1 <= 31)
    by (unfold mp; Z.to_euclidean_division_equations; lia).
  destruct (Z.ltb_spec mp 10); lia.
Qed.

Lemma civil_of_days_year day :
  -719528 <= day <= 2932896 ->
  let '(y, m, d) := civil_of_days day in 0 <= y <= 9999.
Proof.
  intros Hday. calendar_setup day.
  destruct (Z.ltb_spec mp 10).
  - destruct (Z.leb_spec (mp + 3) 2); [lia|].
    unfold doy, mp, yoe in *. clearbody doe era. subst z.
    Z.to_euclidean_division_equations; lia.
  - destruct (Z.leb_spec (mp - 9) 2); [|lia].
    unfold doy, mp, yoe in *. clearbody doe era. subst z.
    Z.to_euclidean_division_equations; lia.
Qed.

(** Reading back what [pad] wrote. *)

Lemma digit_value_digit n : digit_value (digit n) = Some (n mod 10).
Proof.
  unfold digit_value, digit.
  assert (H : 0 <= n mod 10 < 10) by (apply Z.mod_pos_bound; lia).
  rewrite N_ascii_embedding by lia.
  rewrite N2Z.inj_add, Z2N.id by lia. simpl Z.of_N.
  destruct (Z.leb_spec 48 (48 + n mod 10)); [|lia].
  destruct (Z.leb_spec (48 + n mod 10) 57); [|lia].
  simpl. f_equal. lia.
Qed.

Lemma number_step w acc s :
  number (S w) acc s =
  match number w acc s with
  | Some (v, String c rest) =>
      match digit_value c with
      | Some d => Some (10 * v + d, rest)
      | None => None
      end
  | _ => None
  end.
Proof.
  revert acc s. induction w as [|w IH]; intros acc s.
  - simpl. destruct s as [|c rest]; [reflexivity|].
    destruct (digit_value c); reflexivity.
  - change (number (S (S w)) acc s) with
      (match s with
       | String c rest => v ← digit_value c; number (S w) (10 * acc + v) rest
       | EmptyString => None
       end).
    destruct s as [|c rest]; [reflexivity|].
    simpl number at 2.
    destruct (digit_value c) as [v|]; [|reflexivity].
    simpl. apply IH.
Qed.

Lemma number_digits w : forall n acc s,
  0 <= n < 10 ^ Z.of_nat w ->
  number w acc (digits w n s) = Some (acc * 10 ^ Z.of_nat w + n, s).
Proof.
  induction w as [|w IH]; intros n acc s Hn.
  - simpl in *. f_equal. f_equal. lia.
  - rewrite number_step. cbn [digits].
    rewrite Nat2Z.inj_succ, Z.pow_succ_r in * by lia.
    rewrite IH by (Z.to_euclidean_division_equations; nia).
    rewrite digit_value_digit. f_equal. f_equal.
    Z.to_euclidean_division_equations; nia.
Qed.

Lemma digits_append w : forall n s r,
  digits w n s +:+ r = digits w n (s +:+ r).
Proof.
  induction w as [|w IH]; intros n s r; [reflexivity|].
  cbn [digits]. rewrite IH. reflexivity.
Qed.

Lemma number_pad w n acc rest :
  0 <= n < 10 ^ Z.of_nat w ->
  number w acc (pad w n +:+ rest) = Some (acc * 10 ^ Z.of_nat w + n, rest).
Proof.
  intros Hn. unfold pad. rewrite digits_append. apply number_digits, Hn.
Qed.

Lemma number_pad_zero w n rest :
  0 <= n < 10 ^ Z.of_nat w ->
  number w 0 (pad w n +:+ rest) = Some (n, rest).
Proof. intros Hn. rewrite number_pad by exact Hn. reflexivity. Qed.

End Calendar.

Lemma expect_literal c rest :
  JsDate.expect c (String c EmptyString +:+ rest) = Some rest.
Proof. simpl. rewrite Ascii.eqb_refl. reflexivity. Qed.

Lemma fraction_point rest :
  JsDate.fraction ("." +:+ rest) = JsDate.number 3 0 rest.
Proof. reflexivity. Qed.

Lemma in_range_inside lo hi v :
  lo <= v <= hi -> JsDate.in_range lo hi v = Some tt.
Proof.
  intros H. unfold JsDate.in_range.
  destruct (Z.leb_spec lo v); [|lia]. destruct (Z.leb_spec v hi); [|lia].
  reflexivity.
Qed.

(** Round trip: the sample [Date.parse] reads back what [toISOString]
    writes, for every time value whose year takes four digits. *)
Lemma parse_utc_iso_of_time (t : Z) :
  four_digit_year t -> JsDate.parse_utc (JsDate.iso_of_time t) = Some t.
Proof.
  unfold four_digit_year. intros Ht.
  unfold JsDate.iso_of_time, JsDate.msPerDay.
  set (day := t / 86400000).
  set (ms := t mod 86400000).
  assert (Hms : 0 <= ms < 86400000) by (apply Z.mod_pos_bound; lia).
  assert (Hday : -719528 <= day <= 2932896)
    by (unfold day; Z.to_euclidean_division_equations; lia).
  assert (Ht' : t = day * 86400000 + ms)
    by (unfold day, ms; Z.to_euclidean_division_equations; lia).
  pose proof (days_of_civil_of_days day) as Hround.
  pose proof (civil_of_days_month_day day) as Hmd.
  pose proof (civil_of_days_year day Hday) as Hyear.
  destruct (JsDate.civil_of_days day) as [[y m] d] eqn:Hcivil.
  unfold JsDate.year_string.
  destruct (Z.leb_spec 0 y); [|lia]. destruct (Z.leb_spec y 9999); [|lia].
  cbn [andb]. unfold JsDate.parse_utc.
  assert (Hhh : 0 <= ms / 3600000 <= 23)
    by (Z.to_euclidean_division_equations; lia).
  assert (Hmm : 0 <= ms / 60000 mod 60 < 60) by (apply Z.mod_pos_bound; lia).
  assert (Hss : 0 <= ms / 1000 mod 60 < 60) by (apply Z.mod_pos_bound; lia).
  assert (Hmil : 0 <= ms mod 1000 < 1000) by (apply Z.mod_pos_bound; lia).
  repeat first
    [ rewrite expect_literal
    | rewrite fraction_point
    | rewrite number_pad_zero by (simpl; lia)
    | progress cbn [mbind option_bind] ].
  change (JsDate.expect "Z" "Z") with (Some ""). cbn [mbind option_bind].
  rewrite !in_range_inside by lia. cbn [mbind option_bind truthy].
  rewrite Hround, Hcivil.
  destruct (decide ((y, m, d) = (y, m, d))) as [_|Hne]; [|destruct Hne; reflexivity].
  f_equal. unfold JsDate.msPerDay. rewrite Ht'.
  Z.to_euclidean_division_equations; lia.
Qed.

(** ** What the calls log *)

Lemma count_none (test : Event -> bool) events :
  Forall (fun ev => test ev = false) events -> count test events = O.
Proof.
  induction 1 as [|ev rest Hev _ IH]; [reflexivity|].
  simpl. rewrite Hev, IH. reflexivity.
Qed.

Lemma count_app (test : Event -> bool) (l1 l2 : list Event) :
  count test (l1 ++ l2) = (count test l1 + count test l2)%nat.
Proof.
  induction l1 as [|ev l1 IH]; simpl; [reflexivity|]. rewrite IH. lia.
Qed.

(** X1. Whatever the network answers, [createBooking] calls the provider
    exactly once and first, never a second time, and calls the backend
    sync at most once: not at all when the provider call fails, exactly
    once when it succeeds. *)
Theorem createBooking_call_discipline (env : Env)
    (bookingData : BookingRequest.t) log :
  exists rest,
    final_log (createBooking env bookingData log)
      = (log ++ Fetch (square_http (square_request env bookingData)) :: rest)%list /\
    count is_provider rest = O /\
    count is_sync rest =
      match completion (createSquareBooking env (square_request env bookingData) log) with
      | Return _ => 1%nat
      | Throw _ => O
      end.
Proof.
  destruct (createSquareBooking env (square_request env bookingData) log)
    as [[squareResponse|e] log1] eqn:Hsquare.
  - destruct (createBooking_log_after_provider env bookingData log
                squareResponse log1 Hsquare) as [rest [Hlog Hrest]].
    rewrite (createSquareBooking_return_log env _ _ _ _ Hsquare) in Hlog.
    rewrite <- app_assoc in Hlog. eexists. split; [exact Hlog|].
    simpl. split.
    + apply count_none. eapply Forall_impl; [exact Hrest|].
      intros ev [_ H]. exact H.
    + rewrite count_none; [reflexivity|].
      eapply Forall_impl; [exact Hrest|]. intros ev [H _]. exact H.
  - assert (He : completion (createSquareBooking env (square_request env bookingData) log)
                 = Throw e) by (rewrite Hsquare; reflexivity).
    rewrite (createBooking_stops_at_provider env bookingData log e He).
    rewrite createSquareBooking_run in *. cbv zeta in *.
    destruct (fetch_square env _) as [response|e'].
    + destruct (json response) as [data|e'].
      * destruct (ok response && SquareBookingResponse.success data);
          [discriminate|].
        eexists. split; [reflexivity|]. split; reflexivity.
      * eexists. split; [reflexivity|]. split; reflexivity.
    + eexists. split; [reflexivity|]. split; reflexivity.
Qed.

(** X2. [createSquareBooking] writes to the console exactly when it
    rejects: a call that returns has logged its request alone, a call that
    rejects has logged its request and then one [console.error] line that
    carries the very value it throws. *)
Theorem createSquareBooking_logs_what_it_throws (env : Env)
    (bookingData : SquareBookingRequest.t) log :
  let run := createSquareBooking env bookingData log in
  final_log run =
  match completion run with
  | Return _ => (log ++ [Fetch (square_http bookingData)])%list
  | Throw e =>
      (log ++ [Fetch (square_http bookingData);
               ConsoleError "Error creating Square booking:" e])%list
  end.
Proof.
  cbv zeta. rewrite createSquareBooking_run. cbv zeta.
  destruct (fetch_square env _) as [response|e]; [|reflexivity].
  destruct (json response) as [data|e]; [|reflexivity].
  destruct (ok response && SquareBookingResponse.success data); reflexivity.
Qed.

(** X3. [syncBookingWithBackend] is silent about a response that is not
    ok: whenever the fetch resolves and the body parses, whatever the
    status, only the request is logged; a [console.error] line appears
    only when the fetch rejects or the body does not parse, and it carries
    the error caught. *)
Theorem syncBookingWithBackend_logging (env : Env)
    (bookingData : BookingRequest.t) (squareBookingId : option string) log :
  let req := sync_http env bookingData squareBookingId in
  let run := syncBookingWithBackend env bookingData squareBookingId log in
  (forall response data,
      fetch_bookings env req = Return response -> json response = Return data ->
      final_log run = (log ++ [Fetch req])%list) /\
  (forall e,
      fetch_bookings env req = Throw e \/
      (exists response,
          fetch_bookings env req = Return response /\ json response = Throw e) ->
      final_log run
      = (log ++ [Fetch req;
                 ConsoleError "Error syncing booking with backend:" e])%list).
Proof.
  cbv zeta. rewrite syncBookingWithBackend_run. cbv zeta. split.
  - intros response data -> ->. reflexivity.
  - intros e [->|[response [-> ->]]]; reflexivity.
Qed.

(** ** What the sync is sent *)

(** X4. After a successful provider call the sync request posts the
    caller's booking data under the attempt's key, together with the
    identifier of the provider booking when the response carries a
    booking with a non-empty [id], and without a [square_booking_id]
    otherwise; the sync is sent even when the provider response has no
    booking. *)
Theorem createBooking_sync_body (env : Env)
    (bookingData : BookingRequest.t) log squareResponse log1 :
  createSquareBooking env (square_request env bookingData) log
    = (Return squareResponse, log1) ->
  exists req rest,
    final_log (createBooking env bookingData log)
      = (log1 ++ Fetch req :: rest)%list /\
    body req =
      BookingBody (with_key bookingData (idempotencyKey_of env bookingData))
        match SquareBookingResponse.booking squareResponse with
        | Some booking =>
            if truthy (SquareBookingResponse.id booking)
            then Some (SquareBookingResponse.id booking)
            else None
        | None => None
        end.
Proof.
  intros Hsquare.
  destruct (createBooking_log_after_provider env bookingData log
              squareResponse log1 Hsquare) as [rest [Hlog _]].
  eexists. exists rest. split; [exact Hlog|].
  unfold sync_http. cbn [body].
  destruct (SquareBookingResponse.booking squareResponse); reflexivity.
Qed.

Lemma createBooking_sync_body_witness :
  let env := Samples.browser
               (Samples.respond true (Samples.square_body true None))
               (Samples.respond true Samples.backend_record)
               Samples.offline in
  exists req rest,
    final_log (createBooking env (Samples.request (Some "attempt-1")) [])
      = ([Fetch (square_http (square_request env (Samples.request (Some "attempt-1"))))]
           ++ Fetch req :: rest)%list /\
    body req = BookingBody (Samples.request (Some "attempt-1")) None.
Proof.
  intros env.
  assert (Hsquare :
            createSquareBooking env
              (square_request env (Samples.request (Some "attempt-1"))) []
            = (Return (Samples.square_body true None),
               [Fetch (square_http
                         (square_request env (Samples.request (Some "attempt-1"))))]))
    by (vm_compute; reflexivity).
  destruct (createBooking_sync_body env (Samples.request (Some "attempt-1")) []
              _ _ Hsquare) as [req [rest [Hlog Hbody]]].
  exists req, rest. split; [exact Hlog|exact Hbody].
Defined.

(** X5. When the caller supplies a non-empty [idempotencyKey], the booking
    data handed to the sync is the caller's request itself: stamping the
    key changes no field. *)
Theorem with_key_of_keyed_request (env : Env) (bookingData : BookingRequest.t) k :
  BookingRequest.idempotencyKey bookingData = Some k ->
  truthy k = true ->
  with_key bookingData (idempotencyKey_of env bookingData) = bookingData.
Proof.
  intros Hkey Htruthy. destruct bookingData as [sv tm st ver note key].
  simpl in Hkey. subst key.
  unfold with_key, idempotencyKey_of, or_else. simpl.
  rewrite Htruthy. reflexivity.
Qed.

Lemma with_key_of_keyed_request_witness :
  let env := Samples.browser Samples.offline Samples.offline Samples.offline in
  with_key (Samples.request (Some "attempt-1"))
    (idempotencyKey_of env (Samples.request (Some "attempt-1")))
  = Samples.request (Some "attempt-1").
Proof.
  intros env.
  apply (with_key_of_keyed_request env (Samples.request (Some "attempt-1"))
           "attempt-1"); reflexivity.
Defined.

(** ** How failures reach the caller of [createBooking] *)

(** X6. When the provider answers with a body that parses and either the
    response is not ok or [success] is false, [createBooking] rejects with
    a plain [Error] whose message is the [message] of that body when it
    has a non-empty one and "Failed to create Square booking" otherwise;
    the HTTP status plays no part in the message. *)
Theorem createBooking_surfaces_provider_message (env : Env)
    (bookingData : BookingRequest.t) log response data :
  fetch_square env (square_http (square_request env bookingData)) = Return response ->
  json response = Return data ->
  ok response = false \/ SquareBookingResponse.success data = false ->
  completion (createBooking env bookingData log) =
  Throw (Error match SquareBookingResponse.message data with
               | Some m => if truthy m then m else "Failed to create Square booking"
               | None => "Failed to create Square booking"
               end).
Proof.
  intros Hfetch Hjson Hfail.
  assert (Hprovider :
            completion (createSquareBooking env (square_request env bookingData) log)
            = Throw (square_failure data)).
  { rewrite createSquareBooking_run. cbv zeta. rewrite Hfetch, Hjson.
    destruct Hfail as [H|H]; rewrite H, ?andb_false_r; reflexivity. }
  rewrite (createBooking_stops_at_provider env bookingData log _ Hprovider).
  reflexivity.
Qed.

Lemma createBooking_surfaces_provider_message_witness :
  completion
    (createBooking
       (Samples.browser
          (Samples.respond false
             {| SquareBookingResponse.success := false;
                SquareBookingResponse.booking := None;
                SquareBookingResponse.message := Some "Time slot no longer available";
                SquareBookingResponse.details := None;
                SquareBookingResponse.isRetry := None |})
          Samples.offline Samples.offline)
       (Samples.request None) [])
  = Throw (Error "Time slot no longer available").
Proof.
  apply (createBooking_surfaces_provider_message
           (Samples.browser
              (Samples.respond false
                 {| SquareBookingResponse.success := false;
                    SquareBookingResponse.booking := None;
                    SquareBookingResponse.message := Some "Time slot no longer available";
                    SquareBookingResponse.details := None;
                    SquareBookingResponse.isRetry := None |})
              Samples.offline Samples.offline)
           (Samples.request None) [] _ _ eq_refl eq_refl).
  left. reflexivity.
Defined.

(** One hour past the last time value is no time value. *)
Lemma synthetic_overflow (env : Env)
    (booking : SquareBookingResponse.booking_t) (t : Z) log :
  new_Date env (SquareBookingResponse.startAt booking) = Some t ->
  JsDate.maxTime < t + 3600000 ->
  synthetic env booking log = (Throw (RangeError "Invalid time value"), log).
Proof.
  intros Hdate Hover.
  unfold synthetic, JsDate.getTime, JsDate.of_number. unfold_async.
  rewrite Hdate. simpl.
  destruct (Z.leb_spec (Z.abs (t + 3600000)) JsDate.maxTime) as [Hin|_];
    [|reflexivity].
  unfold JsDate.maxTime in *. lia.
Qed.

(** X7. When the provider has made the booking, the sync fails, and the
    start of the booking is not a valid date (or lies within the last hour
    of the range of dates), [createBooking] rejects with the RangeError
    "Invalid time value", after both calls have gone out. *)
Theorem createBooking_invalid_start_rejects (env : Env)
    (bookingData : BookingRequest.t) log squareResponse log1 booking log2 :
  createSquareBooking env (square_request env bookingData) log
    = (Return squareResponse, log1) ->
  SquareBookingResponse.booking squareResponse = Some booking ->
  syncBookingWithBackend env
    (with_key bookingData (idempotencyKey_of env bookingData))
    (Some (SquareBookingResponse.id booking)) log1
    = (Return None, log2) ->
  new_Date env (SquareBookingResponse.startAt booking) = None \/
  (exists t, new_Date env (SquareBookingResponse.startAt booking) = Some t /\
             JsDate.maxTime < t + 3600000) ->
  createBooking env bookingData log
    = (Throw (RangeError "Invalid time value"), log2) /\
  count is_provider log2 = S (count is_provider log) /\
  count is_sync log2 = S (count is_sync log).
Proof.
  intros Hsquare Hbooking Hsync Hdate.
  assert (Hrun := createBooking_after_provider env bookingData log
                    squareResponse log1 None log2 Hsquare).
  rewrite Hbooking in Hrun. simpl in Hrun. specialize (Hrun Hsync).
  split.
  - rewrite Hrun. destruct Hdate as [Hnone|[t [Hsome Hover]]].
    + apply synthetic_invalid. exact Hnone.
    + apply (synthetic_overflow env booking t log2 Hsome Hover).
  - rewrite (createSquareBooking_return_log env _ _ _ _ Hsquare) in Hsync.
    rewrite syncBookingWithBackend_run in Hsync. cbv zeta in Hsync.
    destruct (fetch_bookings env _) as [response|e];
      [destruct (json response) as [data|e]|];
      apply (f_equal snd) in Hsync; simpl in Hsync; subst log2;
      rewrite !count_app; unfold sync_http, square_http; simpl; lia.
Qed.

Lemma createBooking_invalid_start_rejects_witness :
  let env := Samples.browser
               (Samples.respond true
                  (Samples.square_body true (Some (Samples.booking "tomorrow at ten"))))
               Samples.offline Samples.offline in
  completion (createBooking env (Samples.request None) [])
    = Throw (RangeError "Invalid time value") /\
  count is_provider (final_log (createBooking env (Samples.request None) [])) = 1%nat /\
  count is_sync (final_log (createBooking env (Samples.request None) [])) = 1%nat.
Proof.
  intros env.
  assert (Hsquare :
            createSquareBooking env (square_request env (Samples.request None)) []
            = (Return (Samples.square_body true
                         (Some (Samples.booking "tomorrow at ten"))),
               [Fetch (square_http (square_request env (Samples.request None)))]))
    by (vm_compute; reflexivity).
  assert (Hsync :
            syncBookingWithBackend env
              (with_key (Samples.request None)
                 (idempotencyKey_of env (Samples.request None)))
              (Some "sq-booking-1")
              [Fetch (square_http (square_request env (Samples.request None)))]
            = (Return None,
               [Fetch (square_http (square_request env (Samples.request None)));
                Fetch (sync_http env
                         (with_key (Samples.request None)
                            (idempotencyKey_of env (Samples.request None)))
                         (Some "sq-booking-1"));
                ConsoleError "Error syncing booking with backend:"
                  (TypeError "Failed to fetch")]))
    by (vm_compute; reflexivity).
  destruct (createBooking_invalid_start_rejects env (Samples.request None) []
              _ _ (Samples.booking "tomorrow at ten") _ Hsquare eq_refl Hsync
              (or_introl eq_refl)) as [Hrun [Hprovider Hsynced]].
  rewrite Hrun. split; [reflexivity|]. split; [exact Hprovider|exact Hsynced].
Defined.

(** X8. The synthetic response takes its [status] from the provider
    booking, and reads an empty status as "ACCEPTED"; its [service_name]
    is always "Your appointment" and its [message] says that the booking
    is not yet synced. *)
Theorem createBooking_synthetic_status (env : Env)
    (bookingData : BookingRequest.t) log squareResponse log1 booking log2 t :
  createSquareBooking env (square_request env bookingData) log
    = (Return squareResponse, log1) ->
  SquareBookingResponse.booking squareResponse = Some booking ->
  syncBookingWithBackend env
    (with_key bookingData (idempotencyKey_of env bookingData))
    (Some (SquareBookingResponse.id booking)) log1
    = (Return None, log2) ->
  new_Date env (SquareBookingResponse.startAt booking) = Some t ->
  t + 3600000 <= JsDate.maxTime ->
  exists response,
    createBooking env bookingData log = (Return response, log2) /\
    BookingResponse.status (BookingResponse.data response)
      = (if truthy (SquareBookingResponse.status booking)
         then SquareBookingResponse.status booking
         else "ACCEPTED") /\
    BookingResponse.service_name (BookingResponse.data response)
      = "Your appointment" /\
    BookingResponse.message response
      = "Booking created in Square but not yet synced with backend".
Proof.
  intros Hsquare Hbooking Hsync Hdate Hend.
  assert (Hrun := createBooking_after_provider env bookingData log
                    squareResponse log1 None log2 Hsquare).
  rewrite Hbooking in Hrun. simpl in Hrun. specialize (Hrun Hsync).
  rewrite (synthetic_run env booking t log2 Hdate Hend) in Hrun.
  eexists. split; [exact Hrun|]. repeat split.
Qed.

Lemma createBooking_synthetic_status_witness :
  let booking :=
    {| SquareBookingResponse.id := "sq-booking-2";
       SquareBookingResponse.status := "";
       SquareBookingResponse.startAt := "2025-03-01T10:00:00Z";
       SquareBookingResponse.locationId := "LOC-1";
       SquareBookingResponse.customerId := None;
       SquareBookingResponse.createdAt := "2025-02-20T09:00:00Z";
       SquareBookingResponse.version := "0" |} in
  let env := Samples.browser
               (Samples.respond true (Samples.square_body true (Some booking)))
               Samples.offline Samples.offline in
  exists response,
    completion (createBooking env (Samples.request None) []) = Return response /\
    BookingResponse.status (BookingResponse.data response) = "ACCEPTED".
Proof.
  intros booking env.
  assert (Hsquare :
            createSquareBooking env (square_request env (Samples.request None)) []
            = (Return (Samples.square_body true (Some booking)),
               [Fetch (square_http (square_request env (Samples.request None)))]))
    by (vm_compute; reflexivity).
  assert (Hsync :
            syncBookingWithBackend env
              (with_key (Samples.request None)
                 (idempotencyKey_of env (Samples.request None)))
              (Some "sq-booking-2")
              [Fetch (square_http (square_request env (Samples.request None)))]
            = (Return None,
               [Fetch (square_http (square_request env (Samples.request None)));
                Fetch (sync_http env
                         (with_key (Samples.request None)
                            (idempotencyKey_of env (Samples.request None)))
                         (Some "sq-booking-2"));
                ConsoleError "Error syncing booking with backend:"
                  (TypeError "Failed to fetch")]))
    by (vm_compute; reflexivity).
  assert (Hdate : new_Date env "2025-03-01T10:00:00Z" = Some 1740823200000)
    by (vm_compute; reflexivity).
  assert (Hend : 1740823200000 + 3600000 <= JsDate.maxTime)
    by (vm_compute; discriminate).
  destruct (createBooking_synthetic_status env (Samples.request None) []
              _ _ booking _ _ Hsquare eq_refl Hsync Hdate Hend)
    as [response [Hrun [Hstatus _]]].
  exists response. rewrite Hrun. split; [reflexivity|exact Hstatus].
Defined.

(** ** The dates of the availability search *)

(** X9. [searchAvailability] with an invalid start or end date rejects
    with the RangeError "Invalid time value" and sends nothing: the log is
    left as it was. *)
Theorem searchAvailability_invalid_date (env : Env)
    (serviceVariationId : string) (startDate endDate : JsDate.Date) log :
  startDate = None \/ endDate = None ->
  searchAvailability env serviceVariationId startDate endDate log
  = (Throw (RangeError "Invalid time value"), log).
Proof.
  intros [->| ->]; unfold searchAvailability; unfold_async.
  - reflexivity.
  - destruct startDate; reflexivity.
Qed.

Lemma searchAvailability_invalid_date_witness :
  searchAvailability
    (Samples.browser Samples.offline Samples.offline
       (Samples.respond true (AvailabilityEnvelope.mk Samples.slots)))
    "SV-FADE" (Some 1740823200000) None []
  = (Throw (RangeError "Invalid time value"), []).
Proof.
  apply searchAvailability_invalid_date. right. reflexivity.
Defined.

(** X10. [searchAvailability] sends its range without loss: for dates
    whose years take four digits, the one request it makes carries as
    [start_at] and [end_at] two texts that, read back as UTC timestamps,
    are exactly the time values of the two dates it was given. *)
Theorem searchAvailability_sends_the_range (env : Env)
    (serviceVariationId : string) (startTime endTime : Z) log :
  four_digit_year startTime -> four_digit_year endTime ->
  exists start_at end_at,
    final_log (searchAvailability env serviceVariationId
                 (Some startTime) (Some endTime) log)
    = (log ++ [Fetch (availability_http env serviceVariationId start_at end_at)])%list /\
    JsDate.parse_utc start_at = Some startTime /\
    JsDate.parse_utc end_at = Some endTime.
Proof.
  intros Hstart Hend. rewrite searchAvailability_run. cbv zeta.
  exists (JsDate.iso_of_time startTime), (JsDate.iso_of_time endTime).
  split; [reflexivity|]. split; apply parse_utc_iso_of_time; assumption.
Qed.

Lemma searchAvailability_sends_the_range_witness :
  exists start_at end_at,
    final_log
      (searchAvailability
         (Samples.browser Samples.offline Samples.offline Samples.offline)
         "SV-FADE" (Some 1740823200000) (Some 1741428000000) [])
    = ([] ++ [Fetch (availability_http
                       (Samples.browser Samples.offline Samples.offline Samples.offline)
                       "SV-FADE" start_at end_at)])%list /\
    JsDate.parse_utc start_at = Some 1740823200000 /\
    JsDate.parse_utc end_at = Some 1741428000000.
Proof.
  apply searchAvailability_sends_the_range; unfold four_digit_year; lia.
Defined.



(** X12. Without a token in [localStorage], or with an empty one, the two
    calls to the backend still go out, and both carry the header
    [Authorization: Bearer null]. *)
Theorem backend_calls_without_token (env : Env) :
  localStorage env !! "token" = None \/ localStorage env !! "token" = Some "" ->
  let sent := [("Content-Type", "application/json");
               ("Authorization", "Bearer null")] in
  (forall bookingData squareBookingId log,
      exists req rest,
        final_log (syncBookingWithBackend env bookingData squareBookingId log)
          = (log ++ Fetch req :: rest)%list /\
        headers req = sent) /\
  (forall serviceVariationId startTime endTime log,
      exists req,
        final_log (searchAvailability env serviceVariationId
                     (Some startTime) (Some endTime) log)
          = (log ++ [Fetch req])%list /\
        headers req = sent).
Proof.
  intros Htoken. cbv zeta.
  assert (Hheaders : backend_headers env
                     = [("Content-Type", "application/json");
                        ("Authorization", "Bearer null")]).
  { unfold backend_headers. destruct Htoken as [-> | ->]; reflexivity. }
  split.
  - intros bookingData squareBookingId log.
    rewrite syncBookingWithBackend_run. cbv zeta.
    destruct (fetch_bookings env _) as [response|e];
      [destruct (json response) as [data|e]|];
      eexists; eexists; (split; [reflexivity|exact Hheaders]).
  - intros serviceVariationId startTime endTime log.
    rewrite searchAvailability_run. cbv zeta.
    eexists. split; [reflexivity|exact Hheaders].
Qed.

Lemma backend_calls_without_token_witness :
  exists req,
    final_log
      (searchAvailability
         (Samples.browser Samples.offline Samples.offline Samples.offline)
         "SV-FADE" (Some 1740823200000) (Some 1741428000000) [])
    = ([] ++ [Fetch req])%list /\
    headers req = [("Content-Type", "application/json");
                   ("Authorization", "Bearer null")].
Proof.
  destruct (backend_calls_without_token
              (Samples.browser Samples.offline Samples.offline Samples.offline)
              (or_introl eq_refl)) as [_ Hsearch].
  apply Hsearch.
Defined.

(** ** The methods that go through the API client *)

Import BookingServiceApi.

Lemma normalised_error (thrown : Exn) (fallback : string) :
  truthy fallback = true ->
  exists m,
    Error (or_else (Some (message_of thrown)) fallback) = Error m /\
    truthy m = true /\
    (truthy (message_of thrown) = true -> m = message_of thrown).
Proof.
  intros Hfallback. unfold or_else.
  destruct (truthy (message_of thrown)) eqn:Hm; eexists; split;
    try reflexivity; split; auto; discriminate.
Qed.



(** ** The paths requested *)

Lemma length_append (s t : string) :
  String.length (s +:+ t) = (String.length s + String.length t)%nat.
Proof. induction s as [|c s IH]; simpl; [reflexivity|]. rewrite IH. reflexivity. Qed.

Lemma append_inv_tail (s1 s2 t : string) :
  s1 +:+ t = s2 +:+ t -> s1 = s2.
Proof.
  revert s2. induction s1 as [|c s1 IH]; intros [|c' s2] H; simpl in H.
  - reflexivity.
  - apply (f_equal String.length) in H. simpl in H.
    rewrite !length_append in H. simpl in H. lia.
  - apply (f_equal String.length) in H. simpl in H.
    rewrite !length_append in H. simpl in H. lia.
  - injection H as -> H. f_equal. apply IH, H.
Qed.

Lemma split_at_separator (c : ascii) (s1 s2 r1 r2 : string) :
  avoids c s1 = true -> avoids c s2 = true ->
  s1 +:+ String c r1 = s2 +:+ String c r2 ->
  s1 = s2 /\ r1 = r2.
Proof.
  revert s2. induction s1 as [|a s1 IH]; intros [|b s2] H1 H2 H; simpl in *.
  - injection H as ->. auto.
  - injection H as <- _. rewrite Ascii.eqb_refl in H2. discriminate.
  - injection H as -> _. rewrite Ascii.eqb_refl in H1. discriminate.
  - injection H as -> H.
    apply andb_true_iff in H1 as [_ H1]. apply andb_true_iff in H2 as [_ H2].
    destruct (IH s2 H1 H2 H) as [-> ->]. auto.
Qed.

Lemma pretty_N_char_avoids (x : N) : Ascii.eqb "&" (pretty_N_char x) = false.
Proof. unfold pretty_N_char. repeat case_match; reflexivity. Qed.

Lemma pretty_N_go_avoids (x : N) : forall s,
  avoids "&" s = true -> avoids "&" (pretty_N_go x s) = true.
Proof.
  induction (N.lt_wf_0 x) as [x _ IH]. intros s Hs.
  destruct (decide (x = 0)%N) as [->|Hx].
  - rewrite pretty_N_go_0. exact Hs.
  - rewrite pretty_N_go_step by lia. apply IH.
    + apply N.div_lt; lia.
    + cbn [avoids]. rewrite pretty_N_char_avoids. exact Hs.
Qed.

Lemma number_text_avoids (n : Z) : avoids "&" (number_text n) = true.
Proof.
  unfold number_text, pretty, pretty_Z.
  destruct n as [|p|p]; [reflexivity| |].
  - unfold pretty, pretty_positive, pretty, pretty_N.
    destruct (decide (N.pos p = 0)%N); [reflexivity|].
    apply pretty_N_go_avoids. reflexivity.
  - change ("-" +:+ pretty p) with (String "-" (pretty p)). simpl.
    unfold pretty, pretty_positive, pretty, pretty_N.
    destruct (decide (N.pos p = 0)%N); [reflexivity|].
    apply pretty_N_go_avoids. reflexivity.
Qed.


(** ** Bodies that are not JSON *)

(** X16. When the provider answers with a body that does not parse,
    whatever the status of the response, [createBooking] rejects with the
    parse error itself, not with an [Error] of the service, after logging
    it once; the sync is not called. *)
Theorem createBooking_unparsable_provider_body (env : Env)
    (bookingData : BookingRequest.t) log response e :
  fetch_square env (square_http (square_request env bookingData)) = Return response ->
  json response = Throw e ->
  createBooking env bookingData log
  = (Throw e,
     (log ++ [Fetch (square_http (square_request env bookingData));
              ConsoleError "Error creating Square booking:" e])%list).
Proof.
  intros Hfetch Hjson.
  assert (Hrun : createSquareBooking env (square_request env bookingData) log
                 = (Throw e,
                    (log ++ [Fetch (square_http (square_request env bookingData));
                             ConsoleError "Error creating Square booking:" e])%list)).
  { rewrite createSquareBooking_run. cbv zeta. rewrite Hfetch, Hjson.
    reflexivity. }
  rewrite (createBooking_stops_at_provider env bookingData log e);
    rewrite Hrun; reflexivity.
Qed.

Lemma createBooking_unparsable_provider_body_witness :
  let env := Samples.browser
               (Return (mkResponse false
                          (Throw (SyntaxError "Unexpected token < in JSON"))))
               (Samples.respond true Samples.backend_record)
               Samples.offline in
  createBooking env (Samples.request None) []
  = (Throw (SyntaxError "Unexpected token < in JSON"),
     ([] ++ [Fetch (square_http (square_request env (Samples.request None)));
             ConsoleError "Error creating Square booking:"
               (SyntaxError "Unexpected token < in JSON")])%list).
Proof.
  intros env.
  apply (createBooking_unparsable_provider_body env (Samples.request None) []
           (mkResponse false (Throw (SyntaxError "Unexpected token < in JSON"))));
    reflexivity.
Defined.

(** X17. A backend that answers the sync with a body that does not parse
    counts as a failed sync even when the response is ok (a 204 without
    content, say): with a provider booking of valid start,
    [createBooking] logs the parse error and returns the synthetic
    response, [data.id] 0 under the identifier of the provider booking. *)
Theorem createBooking_unparsable_backend_body (env : Env)
    (bookingData : BookingRequest.t) log squareResponse log1 booking t response e :
  createSquareBooking env (square_request env bookingData) log
    = (Return squareResponse, log1) ->
  SquareBookingResponse.booking squareResponse = Some booking ->
  new_Date env (SquareBookingResponse.startAt booking) = Some t ->
  t + 3600000 <= JsDate.maxTime ->
  let req := sync_http env
               (with_key bookingData (idempotencyKey_of env bookingData))
               (Some (SquareBookingResponse.id booking)) in
  fetch_bookings env req = Return response ->
  json response = Throw e ->
  exists result,
    createBooking env bookingData log
    = (Return result,
       (log1 ++ [Fetch req;
                 ConsoleError "Error syncing booking with backend:" e])%list) /\
    BookingResponse.id (BookingResponse.data result) = 0 /\
    BookingResponse.square_booking_id (BookingResponse.data result)
      = SquareBookingResponse.id booking.
Proof.
  intros Hsquare Hbooking Hdate Hend req Hfetch Hjson.
  assert (Hsync :
            syncBookingWithBackend env
              (with_key bookingData (idempotencyKey_of env bookingData))
              (Some (SquareBookingResponse.id booking)) log1
            = (Return None,
               (log1 ++ [Fetch req;
                         ConsoleError "Error syncing booking with backend:" e])%list)).
  { rewrite syncBookingWithBackend_run. cbv zeta. fold req.
    rewrite Hfetch, Hjson. reflexivity. }
  assert (Hrun := fun log2 =>
                    createBooking_after_provider env bookingData log
                      squareResponse log1 None log2 Hsquare).
  rewrite Hbooking in Hrun. simpl in Hrun. specialize (Hrun _ Hsync).
  rewrite (synthetic_run env booking t _ Hdate Hend) in Hrun.
  eexists. split; [exact Hrun|]. split; reflexivity.
Qed.

Lemma createBooking_unparsable_backend_body_witness :
  let env := Samples.browser
               (Samples.respond true
                  (Samples.square_body true
                     (Some (Samples.booking "2025-03-01T10:00:00Z"))))
               (Return (mkResponse true
                          (Throw (SyntaxError "Unexpected end of JSON input"))))
               Samples.offline in
  exists result,
    completion (createBooking env (Samples.request None) []) = Return result /\
    BookingResponse.id (BookingResponse.data result) = 0.
Proof.
  intros env.
  assert (Hsquare :
            createSquareBooking env (square_request env (Samples.request None)) []
            = (Return (Samples.square_body true
                         (Some (Samples.booking "2025-03-01T10:00:00Z"))),
               [Fetch (square_http (square_request env (Samples.request None)))]))
    by (vm_compute; reflexivity).
  assert (Hdate : new_Date env "2025-03-01T10:00:00Z" = Some 1740823200000)
    by (vm_compute; reflexivity).
  assert (Hend : 1740823200000 + 3600000 <= JsDate.maxTime)
    by (vm_compute; discriminate).
  destruct (createBooking_unparsable_backend_body env (Samples.request None) []
              _ _ (Samples.booking "2025-03-01T10:00:00Z") _
              (mkResponse true (Throw (SyntaxError "Unexpected end of JSON input")))
              (SyntaxError "Unexpected end of JSON input")
              Hsquare eq_refl Hdate Hend eq_refl eq_refl)
    as [result [Hrun [Hid _]]].
  exists result. rewrite Hrun. split; [reflexivity|exact Hid].
Defined.
